(** * crownbridge_demo: the data-ingestion pipeline

    A shallow embedding of
      - [data_processing_lambda.py]   (normalisation, key derivation, S3-event handler),
      - [financial_data_ingestor.py]  (the daily pull of raw data),
      - [utils/secrets_manager.py]    (API-key retrieval),
    and the properties of the specification proved about it.

    Conventions of the embedding.
      - Python [str] values are [string]s holding the UTF-8 bytes of the text.
        The only character the code inspects is ['/'] (0x2F), which never
        occurs inside a multi-byte UTF-8 sequence, so splitting bytes on it is
        splitting the text on it.
      - JSON-derived values are the inductive type [json]; a Python [dict] is
        an association list in insertion order with distinct keys.
      - Python [float] is IEEE binary64, here the primitive type [float].
      - Exceptions are values of [exn]; a computation that may raise returns
        a [result]; a computation that also talks to S3, the HTTP API, the
        secret store or the clock is a function of the world state [W].
      - Logging is not modelled: it changes none of the values the properties
        speak about.  The one exception is the log line of [_upload_to_s3],
        whose argument [len(data)] can raise; that evaluation is modelled. *)

From Stdlib Require Import ZArith List String Ascii Bool Lia.
From Stdlib Require Import PrimFloat SpecFloat FloatOps.
Import ListNotations.
Set Warnings "-register-all".
Local Open Scope list_scope.
Local Open Scope string_scope.

(* ================================================================== *)
(** * Python values, exceptions and the built-ins the code calls        *)
(* ================================================================== *)

Module Py.

(** The exception classes that occur in the three files, and one class
    ([KeyboardInterrupt]) that derives from [BaseException] only, so that
    [except Exception] is seen not to catch everything. *)
Inductive exn_class : Type :=
| TypeError | ValueError | AttributeError | KeyError | IndexError
| OverflowError | ZeroDivisionError | JSONDecodeError | UnicodeDecodeError
| ClientError | RequestsTimeout | RequestException
| KeyboardInterrupt.

(** An exception: its class and its message.  Exceptions raised by the
    interpreter carry the empty message here; the ones the code constructs
    carry the text the code gives them. *)
Inductive exn : Type := Raised (c : exn_class) (msg : string).

Definition builtin (c : exn_class) : exn := Raised c "".

Definition class_of (e : exn) : exn_class := let 'Raised c _ := e in c.

Definition class_eq_dec (a b : exn_class) : {a = b} + {a <> b}.
Proof. decide equality. Defined.

(** [issubclass(c, d)] among the classes above. *)
Definition subclass (c d : exn_class) : bool :=
  if class_eq_dec c d then true
  else match c, d with
       | RequestsTimeout, RequestException
       | JSONDecodeError, ValueError
       | UnicodeDecodeError, ValueError => true
       | _, _ => false
       end.

(** [isinstance(e, c)]. *)
Definition isinstance (c : exn_class) (e : exn) : bool := subclass (class_of e) c.

(** [isinstance(e, Exception)]. *)
Definition is_Exception (e : exn) : bool :=
  match class_of e with
  | KeyboardInterrupt => false
  | _ => true
  end.

Inductive result (A : Type) : Type :=
| Ok (a : A)
| Err (e : exn).
Arguments Ok {A} a.
Arguments Err {A} e.

Definition rbind {A B} (r : result A) (k : A -> result B) : result B :=
  match r with
  | Ok a => k a
  | Err e => Err e
  end.

Inductive json : Type :=
| JNull
| JBool (b : bool)
| JInt (z : Z)
| JFloat (f : float)
| JStr (s : string)
| JArr (l : list json)
| JObj (d : list (string * json)).

Definition dict := list (string * json).

(** [d.get(k)] on a dict, [None] of Python being [None] of [option]. *)
Fixpoint dict_lookup (d : dict) (k : string) : option json :=
  match d with
  | [] => None
  | (k', v) :: d' => if String.eqb k' k then Some v else dict_lookup d' k
  end.

(** [bool(v)]: the truth value of a JSON-derived value. *)
Definition truthy (v : json) : bool :=
  match v with
  | JNull => false
  | JBool b => b
  | JInt z => negb (Z.eqb z 0)
  | JFloat f => negb (PrimFloat.eqb f 0%float)
  | JStr s => negb (String.eqb s "")
  | JArr l => match l with [] => false | _ => true end
  | JObj d => match d with [] => false | _ => true end
  end.

(** ** Strings *)

Definition slash : ascii := "/"%char.

(** [s.split(sep)] for a one-character separator. *)
Fixpoint split (sep : ascii) (s : string) : list string :=
  match s with
  | EmptyString => [EmptyString]
  | String c s' =>
      if Ascii.eqb c sep then EmptyString :: split sep s'
      else match split sep s' with
           | [] => [String c EmptyString]
           | seg :: segs => String c seg :: segs
           end
  end.

(** [sep.join(l)]. *)
Fixpoint join (sep : string) (l : list string) : string :=
  match l with
  | [] => ""
  | [s] => s
  | s :: l' => s ++ sep ++ join sep l'
  end.

(** [l[-k]] for [k >= 1]: [IndexError] when the list is shorter than [k]. *)
Definition index_from_end {A} (l : list A) (k : nat) : result A :=
  if (k <=? List.length l)%nat
  then match nth_error l (List.length l - k) with
       | Some a => Ok a
       | None => Err (builtin IndexError)
       end
  else Err (builtin IndexError).

(** [s.rfind(c)]: the index of the last occurrence of [c], or [-1].
    [i] is the index of the first character of [s], [last] the result so far. *)
Fixpoint rfind_from (c : ascii) (s : string) (i last : Z) : Z :=
  match s with
  | EmptyString => last
  | String a s' => rfind_from c s' (i + 1) (if Ascii.eqb a c then i else last)
  end.

Definition rfind (c : ascii) (s : string) : Z := rfind_from c s 0 (-1).

(** [s[i:]] for [i >= 0]. *)
Fixpoint drop (n : nat) (s : string) : string :=
  match n, s with
  | O, _ => s
  | S n', String _ s' => drop n' s'
  | S _, EmptyString => EmptyString
  end.

(** [os.path.basename] of [posixpath]:
    [i = p.rfind('/') + 1; return p[i:]]. *)
Definition basename (p : string) : string :=
  drop (Z.to_nat (rfind slash p + 1)) p.

(** [sub in s] for strings. *)
Fixpoint is_prefix (p s : string) : bool :=
  match p, s with
  | EmptyString, _ => true
  | String a p', String b s' => Ascii.eqb a b && is_prefix p' s'
  | String _ _, EmptyString => false
  end.

Fixpoint contains (sub s : string) : bool :=
  is_prefix sub s ||
  match s with
  | EmptyString => false
  | String _ s' => contains sub s'
  end.

(** [c in s] for a character [c]. *)
Fixpoint occurs (c : ascii) (s : string) : bool :=
  match s with
  | EmptyString => false
  | String a s' => Ascii.eqb a c || occurs c s'
  end.

(** The last [n] elements of a list. *)
Definition lastn {A} (n : nat) (l : list A) : list A :=
  skipn (List.length l - n) l.

End Py.
Import Py.

Notation "x <- r ;; k" := (rbind r (fun x => k))
  (at level 61, r at next level, right associativity).

(* ================================================================== *)
(** * Key derivation (data_processing_lambda.py, lines 79-89)          *)
(* ================================================================== *)

Module KeyDerivation.

(** The key [upload_processed_data_to_s3] computes from [original_s3_key];
    [processed_prefix] is the value of [PROCESSED_S3_PREFIX]. *)
Definition new_s3_key (processed_prefix original_s3_key : string) : result string :=
  let parts := split slash original_s3_key in
  if (4 <=? List.length parts)%nat then
    data_type <- index_from_end parts 3 ;;
    date_str <- index_from_end parts 2 ;;
    filename <- index_from_end parts 1 ;;
    Ok (processed_prefix ++ "/" ++ data_type ++ "/" ++ date_str ++ "/" ++ filename)
  else
    Ok (processed_prefix ++ "/unclassified/" ++ basename original_s3_key).

(** The key [FinancialDataIngestor._upload_to_s3] writes to
    (financial_data_ingestor.py, lines 43-44); [hhmmss] is
    [datetime.now().strftime('%H%M%S')]. *)
Definition file_name (data_type date_str hhmmss : string) : string :=
  data_type ++ "_" ++ date_str ++ "_" ++ hhmmss ++ ".json".

Definition raw_s3_key (s3_prefix data_type date_str file_name : string) : string :=
  s3_prefix ++ "/" ++ data_type ++ "/" ++ date_str ++ "/" ++ file_name.

End KeyDerivation.

(* ================================================================== *)
(** * The Python runtime functions taken as given                       *)
(* ================================================================== *)

(** Text parsing and serialisation of the Python standard library.  The
    code calls them; their algorithms are not part of the repository. *)
Class Runtime : Type := {
  (** [float(s)] on a [str]; [None] is [ValueError]. *)
  parse_float : string -> option float;
  (** [int(s)] on a [str]; [None] is [ValueError]. *)
  parse_int : string -> option Z;
  (** [json.loads(s)]; [None] is [json.JSONDecodeError]. *)
  json_loads : string -> option json;
  (** [json.dumps(v, indent=2)]. *)
  json_dumps : json -> string;
  (** [b.decode('utf-8')]; [None] is [UnicodeDecodeError]. *)
  decode_utf8 : string -> option string
}.

Module Builtins.

(** [float(n)] on an [int]: the nearest binary64 value (ties to even),
    [OverflowError] when there is none below infinity. *)
Definition float_of_int (z : Z) : result float :=
  let f := SF2Prim (binary_normalize prec emax z 0 false) in
  if is_infinity f then Err (builtin OverflowError) else Ok f.

(** [int(x)] on a [float]: truncation towards zero. *)
Definition int_of_float (f : float) : result Z :=
  match Prim2SF f with
  | S754_nan => Err (builtin ValueError)
  | S754_infinity _ => Err (builtin OverflowError)
  | S754_zero _ => Ok 0%Z
  | S754_finite s m e =>
      let a := if (0 <=? e)%Z then (Zpos m * 2 ^ e)%Z else (Zpos m / 2 ^ (- e))%Z in
      Ok (if s then (- a)%Z else a)
  end.

Section WithRuntime.
Context {rt : Runtime}.

(** [float(v)]. *)
Definition py_float (v : json) : result float :=
  match v with
  | JNull => Err (builtin TypeError)
  | JBool b => Ok (if b then 1%float else 0%float)
  | JInt z => float_of_int z
  | JFloat f => Ok f
  | JStr s => match parse_float s with
              | Some f => Ok f
              | None => Err (builtin ValueError)
              end
  | JArr _ | JObj _ => Err (builtin TypeError)
  end.

(** [int(v)]. *)
Definition py_int (v : json) : result Z :=
  match v with
  | JNull => Err (builtin TypeError)
  | JBool b => Ok (if b then 1%Z else 0%Z)
  | JInt z => Ok z
  | JFloat f => int_of_float f
  | JStr s => match parse_int s with
              | Some z => Ok z
              | None => Err (builtin ValueError)
              end
  | JArr _ | JObj _ => Err (builtin TypeError)
  end.

End WithRuntime.

(** [x / y] on floats. *)
Definition truediv (x y : float) : result float :=
  if PrimFloat.eqb y 0%float then Err (builtin ZeroDivisionError)
  else Ok (x / y)%float.

(** [record.get(k, default)]: only a dict has the method. *)
Definition get (record : json) (k : string) (default : json) : result json :=
  match record with
  | JObj d => Ok (match dict_lookup d k with Some v => v | None => default end)
  | _ => Err (builtin AttributeError)
  end.

(** [v[k]] for a string [k]. *)
Definition subscript (v : json) (k : string) : result json :=
  match v with
  | JObj d => match dict_lookup d k with
              | Some x => Ok x
              | None => Err (Raised KeyError k)
              end
  | _ => Err (builtin TypeError)
  end.

Definition is_str (s : string) (v : json) : bool :=
  match v with
  | JStr s' => String.eqb s s'
  | _ => false
  end.

(** [s not in v] for a string [s]. *)
Definition not_in (s : string) (v : json) : result bool :=
  match v with
  | JObj d => Ok (match dict_lookup d s with Some _ => false | None => true end)
  | JArr l => Ok (negb (existsb (is_str s) l))
  | JStr t => Ok (negb (contains s t))
  | _ => Err (builtin TypeError)
  end.

Fixpoint chars (s : string) : list json :=
  match s with
  | EmptyString => []
  | String c s' => JStr (String c EmptyString) :: chars s'
  end.

(** The elements [for x in v] runs over.  Iterating a [str] yields its
    characters; they are given here byte by byte, which is exact for ASCII
    text (every element is a [str] in either reading, and the code only
    ever applies to it operations that depend on that alone). *)
Definition iter (v : json) : result (list json) :=
  match v with
  | JArr l => Ok l
  | JObj d => Ok (map (fun kv => JStr (fst kv)) d)
  | JStr s => Ok (chars s)
  | _ => Err (builtin TypeError)
  end.

(** [len(v)]: [None], booleans and numbers have no length.  The length of
    a [str] is given in bytes, which is exact for ASCII text; the code only
    ever prints it. *)
Definition py_len (v : json) : result nat :=
  match v with
  | JArr l => Ok (List.length l)
  | JObj d => Ok (List.length d)
  | JStr s => Ok (String.length s)
  | _ => Err (builtin TypeError)
  end.

(** [v.split('/')]: only a [str] has the method. *)
Definition split_slash (v : json) : result (list string) :=
  match v with
  | JStr s => Ok (split slash s)
  | _ => Err (builtin AttributeError)
  end.

End Builtins.
Import Builtins.

(* ================================================================== *)
(** * The Normalizer: transform_financial_data                          *)
(* ================================================================== *)

Module Normalizer.
Section WithRuntime.
Context {rt : Runtime}.

(** Lines 43-50: the dict literal of the [company_financials] branch. *)
Definition company_record (record : json) : result dict :=
  symbol <- get record "symbol" JNull ;;
  date <- get record "date" JNull ;;
  revenue <- get record "revenue" JNull ;;
  net_income <- get record "netIncome" JNull ;;
  currency <- get record "currency" JNull ;;
  Ok [("symbol", symbol); ("date", date); ("revenue", revenue);
      ("net_income", net_income); ("currency", currency)].

(** [all(d.values())]. *)
Definition all_values (d : dict) : bool := forallb truthy (map snd d).

(** Lines 41-52: the loop, [processed_data] being the list appended to. *)
Fixpoint company_loop (records processed_data : list json) : result (list json) :=
  match records with
  | [] => Ok processed_data
  | record :: rest =>
      transformed_record <- company_record record ;;
      company_loop rest
        (if all_values transformed_record
         then (processed_data ++ [JObj transformed_record])%list
         else processed_data)
  end.

(** Line 62: the value of ['daily_change_pct']. *)
Definition daily_change_pct (record : json) : result json :=
  guard_v <- get record "open" (JInt 1) ;;
  guard <- py_float guard_v ;;
  if negb (PrimFloat.eqb guard 0%float) then
    close_v <- get record "close" (JInt 0) ;;
    close <- py_float close_v ;;
    open_v <- get record "open" (JInt 0) ;;
    open <- py_float open_v ;;
    divisor_v <- get record "open" (JInt 1) ;;
    divisor <- py_float divisor_v ;;
    quotient <- truediv (close - open)%float divisor ;;
    Ok (JFloat (quotient * 100)%float)
  else Ok (JInt 0).

(** Lines 56-63: the dict literal of the [market_data] branch. *)
Definition market_record (record : json) : result dict :=
  index <- get record "index" JNull ;;
  date <- get record "date" JNull ;;
  open_v <- get record "open" (JInt 0) ;;
  open <- py_float open_v ;;
  close_v <- get record "close" (JInt 0) ;;
  close <- py_float close_v ;;
  volume_v <- get record "volume" (JInt 0) ;;
  volume <- py_int volume_v ;;
  pct <- daily_change_pct record ;;
  Ok [("index", index); ("date", date); ("open", JFloat open);
      ("close", JFloat close); ("volume", JInt volume);
      ("daily_change_pct", pct)].

(** Lines 54-64. *)
Fixpoint market_loop (records processed_data : list json) : result (list json) :=
  match records with
  | [] => Ok processed_data
  | record :: rest =>
      transformed_record <- market_record record ;;
      market_loop rest (processed_data ++ [JObj transformed_record])%list
  end.

Definition transform_financial_data (raw_data : json) (data_type : string) : result json :=
  if String.eqb data_type "company_financials" then
    records <- iter raw_data ;;
    processed_data <- company_loop records [] ;;
    Ok (JArr processed_data)
  else if String.eqb data_type "market_data" then
    records <- iter raw_data ;;
    processed_data <- market_loop records [] ;;
    Ok (JArr processed_data)
  else Ok raw_data.

End WithRuntime.
End Normalizer.

(* ================================================================== *)
(** * Effects: the world, the services and try/except                   *)
(* ================================================================== *)

Module Effects.

(** A computation over the world state [W] that returns or raises. *)
Definition M (W A : Type) : Type := W -> W * result A.

Definition ret {W A} (a : A) : M W A := fun w => (w, Ok a).

Definition raise {W A} (e : exn) : M W A := fun w => (w, Err e).

Definition bind {W A B} (m : M W A) (k : A -> M W B) : M W B :=
  fun w => match m w with
           | (w', Ok a) => k a w'
           | (w', Err e) => (w', Err e)
           end.

(** A computation without effects. *)
Definition lift {W A} (r : result A) : M W A := fun w => (w, r).

(** [try: body  except c1 as e: h1 e  except c2 as e: h2 e ...]: the first
    clause whose class the exception is an instance of handles it; what a
    handler raises is not handled by the clauses after it. *)
Definition try_except {W A} (body : M W A)
    (clauses : list ((exn -> bool) * (exn -> M W A))) : M W A :=
  fun w => match body w with
           | (w', Err e) =>
               match find (fun cl => fst cl e) clauses with
               | Some cl => snd cl e w'
               | None => (w', Err e)
               end
           | r => r
           end.

(** [for x in l: body x]; a [continue] is a body that returns early. *)
Fixpoint for_each {W A} (body : A -> M W unit) (l : list A) : M W unit :=
  match l with
  | [] => ret tt
  | x :: l' => bind (body x) (fun _ => for_each body l')
  end.

(** What [get_secret_value] answers: one of the two fields is populated. *)
Inductive secret_value : Type :=
| SecretString (s : string)
| SecretBinary (b : string).

(** The external collaborators, each a function of the world.  A call
    returns or raises, and may change the world. *)
Class Services (W : Type) : Type := {
  (** [s3_client.get_object(Bucket, Key)['Body'].read()]: the stored bytes.
      The arguments are whatever the event held. *)
  s3_get_object : json -> json -> M W string;
  (** [s3_client.put_object(Bucket, Key, Body, ContentType='application/json')]. *)
  s3_put_object : string -> string -> string -> M W unit;
  (** [requests.get(url, headers, params, timeout=30)], then
      [raise_for_status()] and [json()] on the response. *)
  requests_get : string -> list (string * string) -> list (string * string) -> M W json;
  (** [client.get_secret_value(SecretId)] of the client of a region. *)
  get_secret_value : string -> string -> M W secret_value;
  (** [os.environ.get(name)]. *)
  environ_get : W -> string -> option string;
  (** [datetime.now().strftime('%Y-%m-%d')]. *)
  today : W -> string;
  (** [(datetime.now() - timedelta(days=1)).strftime('%Y-%m-%d')]. *)
  yesterday : W -> string;
  (** [datetime.now().strftime('%H%M%S')]. *)
  hhmmss : W -> string
}.

End Effects.
Import Effects.

Notation "x <-- m ;; k" := (bind m (fun x => k))
  (at level 61, m at next level, right associativity).

(* ================================================================== *)
(** * The Puller: financial_data_ingestor.py                            *)
(* ================================================================== *)

Module Puller.

Record FinancialDataIngestor : Type := {
  api_base_url : string;
  api_key : string;
  s3_bucket_name : string;
  s3_prefix : string
}.

Section WithServices.
Context {rt : Runtime} {W : Type} {sv : Services W}.
Variable self : FinancialDataIngestor.

Definition _fetch_data_from_api (endpoint : string) (params : list (string * string))
  : M W json :=
  let headers := [("Authorization", "Bearer " ++ api_key self)] in
  let url := api_base_url self ++ "/" ++ endpoint in
  try_except (requests_get url headers params)
    [(isinstance RequestsTimeout, fun e => raise e);
     (isinstance RequestException, fun e => raise e)].

Definition _upload_to_s3 (data : json) (data_type date_str : string) : M W string :=
  fun w =>
    let file_name := KeyDerivation.file_name data_type date_str (hhmmss w) in
    let s3_key := KeyDerivation.raw_s3_key (s3_prefix self) data_type date_str file_name in
    try_except
      (let json_data := json_dumps data in
       _ <-- s3_put_object (s3_bucket_name self) s3_key json_data ;;
       (* line 48: the log line evaluates [len(data)] *)
       _ <-- lift (py_len data) ;;
       ret s3_key)
      [(isinstance ClientError, fun e => raise e);
       (isinstance TypeError, fun e => raise e)] w.

Definition ingest_company_financials (symbol period : string) : M W string :=
  let params := [("symbol", symbol); ("period", period)] in
  data <-- _fetch_data_from_api ("financials/" ++ symbol) params ;;
  fun w => _upload_to_s3 data "company_financials" (today w) w.

Definition ingest_market_data (market_index from_date to_date : string) : M W string :=
  let params := [("index", market_index); ("from", from_date); ("to", to_date)] in
  data <-- _fetch_data_from_api ("market/" ++ market_index ++ "/historical") params ;;
  fun w => _upload_to_s3 data "market_data" (today w) w.

(** One of the two loops of [run_daily_ingestion]: [ingest x] inside
    [try ... except Exception], the key appended on success. *)
Fixpoint ingest_loop {A} (ingest : A -> M W string) (items : list A)
    (ingested_keys : list string) : M W (list string) :=
  match items with
  | [] => ret ingested_keys
  | x :: rest =>
      ingested_keys' <--
        try_except
          (key <-- ingest x ;; ret (ingested_keys ++ [key])%list)
          [(is_Exception, fun _ => ret ingested_keys)] ;;
      ingest_loop ingest rest ingested_keys'
  end.

Definition run_daily_ingestion (symbols market_indices : list string)
  : M W (list string) :=
  fun w =>
    let today_str := today w in
    let yesterday_str := yesterday w in
    (ingested_keys <--
       ingest_loop (fun symbol => ingest_company_financials symbol "quarterly")
         symbols [] ;;
     ingest_loop (fun market_index =>
                    ingest_market_data market_index yesterday_str today_str)
       market_indices ingested_keys) w.

End WithServices.
End Puller.

(* ================================================================== *)
(** * The Reactor: data_processing_lambda.py                            *)
(* ================================================================== *)

Module Reactor.

(** The two module-level settings read from the environment at import. *)
Record config : Type := {
  PROCESSED_S3_BUCKET : string;
  PROCESSED_S3_PREFIX : string
}.

Definition dquote : string := String "034"%char EmptyString.

(** The value the handler returns; [json.dumps] of a plain string is the
    string between double quotes. *)
Definition acknowledgment : json :=
  JObj [("statusCode", JInt 200);
        ("body", JStr (dquote ++ "Data processing complete." ++ dquote))].

Section WithServices.
Context {rt : Runtime} {W : Type} {sv : Services W}.
Variable cfg : config.

Definition load_raw_data_from_s3 (bucket key : json) : M W json :=
  try_except
    (body <-- s3_get_object bucket key ;;
     text <-- lift (match decode_utf8 body with
                    | Some t => Ok t
                    | None => Err (builtin UnicodeDecodeError)
                    end) ;;
     lift (match json_loads text with
           | Some data => Ok data
           | None => Err (builtin JSONDecodeError)
           end))
    [(isinstance ClientError, fun e => raise e);
     (isinstance JSONDecodeError, fun e => raise e)].

(** [original_s3_key] is whatever the event held; [.split('/')] is the
    first thing applied to it, and only a [str] has the method. *)
Definition upload_processed_data_to_s3 (data : json) (original_s3_key : json)
  : M W string :=
  try_except
    (new_s3_key <-- lift (match original_s3_key with
                          | JStr k => KeyDerivation.new_s3_key (PROCESSED_S3_PREFIX cfg) k
                          | _ => Err (builtin AttributeError)
                          end) ;;
     let json_data := json_dumps data in
     _ <-- s3_put_object (PROCESSED_S3_BUCKET cfg) new_s3_key json_data ;;
     ret new_s3_key)
    [(isinstance ClientError, fun e => raise e)].

(** Lines 119-125: the data type read off the key. *)
Definition data_type_of (key_parts : list string) : string :=
  if (1 <? List.length key_parts)%nat && String.eqb (nth 0 key_parts "") "financial_data"
  then nth 1 key_parts ""
  else "unknown".

(** Lines 115-138: the [try] block of one notification, with its handler. *)
Definition process_object (bucket key : json) : M W unit :=
  try_except
    (raw_data <-- load_raw_data_from_s3 bucket key ;;
     key_parts <-- lift (split_slash key) ;;
     let data_type := data_type_of key_parts in
     processed_data <-- lift (Normalizer.transform_financial_data raw_data data_type) ;;
     processed_s3_key <-- upload_processed_data_to_s3 processed_data key ;;
     ret tt)
    [(is_Exception, fun e => raise e)].

(** Lines 106-138: the body of the loop over [event['Records']]. *)
Definition handle_record (record : json) : M W unit :=
  missing <-- lift (not_in "s3" record) ;;
  if (missing : bool) then ret tt
  else
    s3 <-- lift (subscript record "s3") ;;
    bucket_obj <-- lift (subscript s3 "bucket") ;;
    bucket <-- lift (subscript bucket_obj "name") ;;
    s3' <-- lift (subscript record "s3") ;;
    object_obj <-- lift (subscript s3' "object") ;;
    key <-- lift (subscript object_obj "key") ;;
    process_object bucket key.

Definition lambda_handler (event : json) : M W json :=
  records_v <-- lift (subscript event "Records") ;;
  records <-- lift (iter records_v) ;;
  _ <-- for_each handle_record records ;;
  ret acknowledgment.

End WithServices.
End Reactor.

(* ================================================================== *)
(** * The Credential Provider: utils/secrets_manager.py                 *)
(* ================================================================== *)

Module Secrets.
Section WithServices.
Context {rt : Runtime} {W : Type} {sv : Services W}.

Definition get_secret (secret_arn : string) : M W string :=
  fun w =>
    let region_name := match environ_get w "AWS_REGION" with
                       | Some r => r
                       | None => "us-east-1"
                       end in
    (response <--
       try_except (get_secret_value region_name secret_arn)
         [(isinstance ClientError, fun e => raise e)] ;;
     match response with
     | SecretString s => ret s
     | SecretBinary b => lift (match decode_utf8 b with
                               | Some t => Ok t
                               | None => Err (builtin UnicodeDecodeError)
                               end)
     end) w.

Definition key_not_found (key_name secret_arn : string) : exn :=
  Raised ValueError ("Key '" ++ key_name ++ "' not found in secret JSON for " ++ secret_arn).

Definition not_valid_json (secret_arn : string) : exn :=
  Raised ValueError ("Secret string is not valid JSON for " ++ secret_arn).

Definition get_api_key_from_secret (secret_arn key_name : string) : M W json :=
  secret_string <-- get_secret secret_arn ;;
  try_except
    (secret_dict <-- lift (match json_loads secret_string with
                           | Some v => Ok v
                           | None => Err (builtin JSONDecodeError)
                           end) ;;
     api_key <-- lift (get secret_dict key_name JNull) ;;
     if negb (truthy api_key)
     then raise (key_not_found key_name secret_arn)
     else ret api_key)
    [(isinstance JSONDecodeError, fun _ => raise (not_valid_json secret_arn));
     (is_Exception, fun e => raise e)].

End WithServices.
End Secrets.

(* ================================================================== *)
(** * What the specification says, as definitions                       *)
(* ================================================================== *)

Module Spec.

(** The value of a field of a record, [JNull] when the field is missing. *)
Definition field (d : dict) (k : string) : json :=
  match dict_lookup d k with
  | Some v => v
  | None => JNull
  end.

(** The five fields of a normalised [company_financials] record. *)
Definition five_fields (d : dict) : dict :=
  [("symbol", field d "symbol"); ("date", field d "date");
   ("revenue", field d "revenue"); ("net_income", field d "netIncome");
   ("currency", field d "currency")].

(** The completeness filter: all five extracted values are truthy. *)
Definition retained (d : dict) : bool :=
  truthy (field d "symbol") && truthy (field d "date") &&
  truthy (field d "revenue") && truthy (field d "netIncome") &&
  truthy (field d "currency").

Section Traces.
Context {W : Type}.

(** The Puller's run over [items], from world [w] to world [w']: [keys] are
    the keys of the items whose ingestion returned, in order; an item whose
    ingestion raised contributes nothing and the run goes on. *)
Inductive ingested {A} (ingest : A -> M W string)
  : list A -> W -> W -> list string -> Prop :=
| ingested_nil w : ingested ingest [] w w []
| ingested_ok x rest w w1 w2 key keys :
    ingest x w = (w1, Ok key) ->
    ingested ingest rest w1 w2 keys ->
    ingested ingest (x :: rest) w w2 (key :: keys)
| ingested_failed x rest w w1 w2 e keys :
    ingest x w = (w1, Err e) ->
    ingested ingest rest w1 w2 keys ->
    ingested ingest (x :: rest) w w2 keys.

(** Every notification of the batch was handled without error. *)
Inductive processed_all (step : json -> M W unit) : list json -> W -> W -> Prop :=
| processed_nil w : processed_all step [] w w
| processed_cons r rest w w1 w2 :
    step r w = (w1, Ok tt) ->
    processed_all step rest w1 w2 ->
    processed_all step (r :: rest) w w2.

(** Some notification of the batch raised [e], the ones before it having
    been handled without error; [w'] is the world at that point. *)
Inductive fails_with (step : json -> M W unit) : list json -> W -> W -> exn -> Prop :=
| fails_here r rest w w1 e :
    step r w = (w1, Err e) ->
    fails_with step (r :: rest) w w1 e
| fails_later r rest w w1 w2 e :
    step r w = (w1, Ok tt) ->
    fails_with step rest w1 w2 e ->
    fails_with step (r :: rest) w w2 e.

End Traces.

(** An item of the daily run. *)
Inductive item : Type :=
| Financials (symbol : string)
| Market (market_index : string).

(** What the daily run calls for an item, [yesterday_str] and [today_str]
    being the dates the run read when it started. *)
Definition ingest_item {rt : Runtime} {W : Type} {sv : Services W}
    (self : Puller.FinancialDataIngestor) (yesterday_str today_str : string)
    (it : item) : M W string :=
  match it with
  | Financials symbol => Puller.ingest_company_financials self symbol "quarterly"
  | Market market_index =>
      Puller.ingest_market_data self market_index yesterday_str today_str
  end.

(** What the API and the storage raise are errors, that is, instances of
    [Exception]. *)
Definition api_raises_exceptions {W : Type} {sv : Services W} : Prop :=
  forall url headers params w w' e,
    requests_get url headers params w = (w', Err e) -> is_Exception e = true.

Definition storage_raises_exceptions {W : Type} {sv : Services W} : Prop :=
  forall bucket key body w w' e,
    s3_put_object bucket key body w = (w', Err e) -> is_Exception e = true.

(** An entry of [event['Records']] that the handler passes over:
    ['s3' not in record] holds. *)
Definition lacks_s3 (record : json) : bool :=
  match not_in "s3" record with
  | Ok true => true
  | _ => false
  end.

End Spec.

(* ================================================================== *)
(** * A small world to run the code in                                  *)
(* ================================================================== *)

(** Stand-ins for the Python runtime and for the services, on which the
    code is run in the examples below.  The decoder knows the texts the
    examples use and rejects every other text. *)
Module Examples.

Definition q : string := Reactor.dquote.

Definition secret_with_key : string := "{" ++ q ++ "api_key" ++ q ++ ":" ++ q ++ "X" ++ q ++ "}".

Definition example_loads (s : string) : option json :=
  if String.eqb s secret_with_key then Some (JObj [("api_key", JStr "X")])
  else if String.eqb s "{}" then Some (JObj [])
  else if String.eqb s "[1]" then Some (JArr [JInt 1])
  else if String.eqb s "[]" then Some (JArr [])
  else None.

#[local] Instance example_runtime : Runtime := {|
  parse_float := fun _ => None;
  parse_int := fun _ => None;
  json_loads := example_loads;
  json_dumps := fun _ => "";
  decode_utf8 := fun b => Some b
|}.

(** The world: the number of API requests made so far (each takes a
    second) and the keys written so far. *)
Definition world : Type := nat * list string.

Definition seconds (n : nat) : string :=
  nth n ["00"; "01"; "02"; "03"; "04"; "05"; "06"; "07"; "08"; "09"] "59".

#[local] Instance example_services : Services world := {|
  (** Every object holds an empty array, except under keys that contain
      [missing]. *)
  s3_get_object := fun bucket key w =>
    match key with
    | JStr k => if contains "missing" k
                then (w, Err (Raised ClientError "NoSuchKey"))
                else (w, Ok "[]")
    | _ => (w, Err (builtin TypeError))
    end;
  s3_put_object := fun bucket key body w => ((fst w, snd w ++ [key])%list, Ok tt);
  (** The API answers an empty array, except for [MSFT]. *)
  requests_get := fun url headers params w =>
    if contains "MSFT" url
    then ((S (fst w), snd w), Err (Raised RequestException "503 Server Error"))
    else ((S (fst w), snd w), Ok (JArr []));
  get_secret_value := fun region secret_arn w =>
    if String.eqb secret_arn "arn:key" then (w, Ok (SecretString secret_with_key))
    else if String.eqb secret_arn "arn:text" then (w, Ok (SecretString "not-json"))
    else if String.eqb secret_arn "arn:empty" then (w, Ok (SecretString "{}"))
    else if String.eqb secret_arn "arn:list" then (w, Ok (SecretString "[1]"))
    else (w, Err (Raised ClientError "ResourceNotFoundException"));
  environ_get := fun _ _ => None;
  today := fun _ => "2024-01-02";
  yesterday := fun _ => "2024-01-01";
  hhmmss := fun w => "1030" ++ seconds (fst w)
|}.

Definition start : world := (O, []).

Definition example_ingestor : Puller.FinancialDataIngestor := {|
  Puller.api_base_url := "https://api.example.com/v1";
  Puller.api_key := "X";
  Puller.s3_bucket_name := "cb-global-raw-financial-data";
  Puller.s3_prefix := "financial_data"
|}.

Definition example_config : Reactor.config := {|
  Reactor.PROCESSED_S3_BUCKET := "cb-global-processed-financial-data";
  Reactor.PROCESSED_S3_PREFIX := "processed_data"
|}.

(** An S3 notification for [key]. *)
Definition notification (key : string) : json :=
  JObj [("s3", JObj [("bucket", JObj [("name", JStr "cb-global-raw-financial-data")]);
                     ("object", JObj [("key", JStr key)])])].

Definition event_of (records : list json) : json := JObj [("Records", JArr records)].

(** Three notifications, the second for an object that is not there. *)
Definition batch_with_missing_object : list json :=
  [notification "financial_data/market_data/2024-01-01/a.json";
   notification "financial_data/market_data/2024-01-01/missing.json";
   notification "financial_data/market_data/2024-01-01/b.json"].

(** An entry without ['s3'], then a notification. *)
Definition batch_with_foreign_entry : list json :=
  [JObj [("EventSource", JStr "aws:sns")];
   notification "financial_data/market_data/2024-01-01/a.json"].

End Examples.

(* ================================================================== *)
(** * Further notions and worlds for the properties beyond the claims   *)
(* ================================================================== *)

Module MoreSpec.

(** A value other than a dict: it has no [get] method. *)
Definition not_a_dict (v : json) : bool :=
  match v with
  | JObj _ => false
  | _ => true
  end.

(** The keys of a normalised [market_data] record, in order. *)
Definition market_keys : list string :=
  ["index"; "date"; "open"; "close"; "volume"; "daily_change_pct"].

(** The region [get_secret] asks the secret store in. *)
Definition region_of {W : Type} {sv : Services W} (w : W) : string :=
  match environ_get w "AWS_REGION" with
  | Some r => r
  | None => "us-east-1"
  end.

(** The request [ingest_company_financials] makes. *)
Definition financials_request {W : Type} {sv : Services W}
    (self : Puller.FinancialDataIngestor) (symbol period : string) : M W json :=
  requests_get (Puller.api_base_url self ++ "/" ++ "financials/" ++ symbol)
    [("Authorization", "Bearer " ++ Puller.api_key self)]
    [("symbol", symbol); ("period", period)].

(** The request [ingest_market_data] makes. *)
Definition market_request {W : Type} {sv : Services W}
    (self : Puller.FinancialDataIngestor) (market_index from_date to_date : string)
  : M W json :=
  requests_get
    (Puller.api_base_url self ++ "/" ++ "market/" ++ market_index ++ "/historical")
    [("Authorization", "Bearer " ++ Puller.api_key self)]
    [("index", market_index); ("from", from_date); ("to", to_date)].

(** The key written for [data_type] when the clock reads as in [w]. *)
Definition key_at {W : Type} {sv : Services W}
    (self : Puller.FinancialDataIngestor) (data_type : string) (w : W) : string :=
  KeyDerivation.raw_s3_key (Puller.s3_prefix self) data_type (today w)
    (KeyDerivation.file_name data_type (today w) (hhmmss w)).

End MoreSpec.

Module MoreExamples.

(** As [Examples.example_services], with a clock that stands still. *)
#[local] Instance frozen_clock_services : Services Examples.world := {|
  s3_get_object := s3_get_object (Services := Examples.example_services);
  s3_put_object := s3_put_object (Services := Examples.example_services);
  requests_get := requests_get (Services := Examples.example_services);
  get_secret_value := get_secret_value (Services := Examples.example_services);
  environ_get := fun _ _ => None;
  today := fun _ => "2024-01-02";
  yesterday := fun _ => "2024-01-01";
  hhmmss := fun _ => "103000"
|}.

(** As [Examples.example_services], with an API call that is interrupted
    from the keyboard. *)
#[local] Instance interrupted_services : Services Examples.world := {|
  s3_get_object := s3_get_object (Services := Examples.example_services);
  s3_put_object := s3_put_object (Services := Examples.example_services);
  requests_get := fun url headers params w => (w, Err (builtin KeyboardInterrupt));
  get_secret_value := get_secret_value (Services := Examples.example_services);
  environ_get := fun _ _ => None;
  today := fun _ => "2024-01-02";
  yesterday := fun _ => "2024-01-01";
  hhmmss := fun _ => "103000"
|}.

(** As [Examples.example_services], with an API that answers [null]. *)
#[local] Instance null_answer_services : Services Examples.world := {|
  s3_get_object := s3_get_object (Services := Examples.example_services);
  s3_put_object := s3_put_object (Services := Examples.example_services);
  requests_get := fun url headers params w => ((S (fst w), snd w), Ok JNull);
  get_secret_value := get_secret_value (Services := Examples.example_services);
  environ_get := fun _ _ => None;
  today := fun _ => "2024-01-02";
  yesterday := fun _ => "2024-01-01";
  hhmmss := fun _ => "103000"
|}.

End MoreExamples.

(* ================================================================== *)
(** * Properties of the string functions                                *)
(* ================================================================== *)

Module StringFacts.

Lemma split_not_nil c s : split c s <> [].
Proof.
  destruct s as [|a s]; simpl; [discriminate|].
  destruct (Ascii.eqb a c); [discriminate|].
  destruct (split c s); discriminate.
Qed.

Lemma split_length_pos c s : (1 <= List.length (split c s))%nat.
Proof.
  pose proof (split_not_nil c s) as H.
  destruct (split c s); [congruence | simpl; lia].
Qed.

(** Splitting a text that has a separator in the middle. *)
Lemma split_app c a b :
  split c (a ++ String c b) = (split c a ++ split c b)%list.
Proof.
  induction a as [|x a IH]; simpl.
  - now rewrite Ascii.eqb_refl.
  - destruct (Ascii.eqb x c); [now rewrite IH|].
    rewrite IH. pose proof (split_not_nil c a) as Hn.
    destruct (split c a); [congruence | reflexivity].
Qed.

Lemma split_without_sep c s : occurs c s = false -> split c s = [s].
Proof.
  induction s as [|a s IH]; simpl; [reflexivity|].
  intros H. apply orb_false_iff in H as [Ha Hs].
  now rewrite Ha, (IH Hs).
Qed.

Lemma split_segments_without_sep c s :
  Forall (fun seg => occurs c seg = false) (split c s).
Proof.
  induction s as [|a s IH]; simpl.
  - now constructor.
  - destruct (Ascii.eqb a c) eqn:E; [now constructor|].
    destruct (split c s) as [|seg segs]; [repeat constructor; simpl; now rewrite E|].
    inversion IH; subst. constructor; [simpl; now rewrite E | assumption].
Qed.

Lemma join_cons sep s l :
  l <> [] -> join sep (s :: l) = s ++ sep ++ join sep l.
Proof. destruct l; [congruence | reflexivity]. Qed.

Lemma string_app_assoc (a b c : string) : (a ++ b) ++ c = a ++ (b ++ c).
Proof. induction a; simpl; [reflexivity | now rewrite IHa]. Qed.

Lemma join_app sep l1 l2 :
  l1 <> [] -> l2 <> [] ->
  join sep (l1 ++ l2)%list = join sep l1 ++ sep ++ join sep l2.
Proof.
  intros H1 H2. induction l1 as [|s l1 IH]; [congruence|].
  destruct l1 as [|t l1].
  - simpl app. now rewrite join_cons.
  - change ((s :: t :: l1) ++ l2)%list with (s :: ((t :: l1) ++ l2))%list.
    rewrite join_cons by discriminate.
    rewrite IH by discriminate.
    rewrite (join_cons sep s (t :: l1)) by discriminate.
    now rewrite !string_app_assoc.
Qed.

(** Joining the segments gives the text back. *)
Lemma join_split c s : join (String c EmptyString) (split c s) = s.
Proof.
  induction s as [|a s IH]; simpl; [reflexivity|].
  destruct (Ascii.eqb a c) eqn:E.
  - apply Ascii.eqb_eq in E; subst a.
    rewrite join_cons by apply split_not_nil. simpl. now rewrite IH.
  - pose proof (split_not_nil c s) as Hn.
    destruct (split c s) as [|seg segs]; [congruence|].
    destruct segs as [|seg' segs].
    + simpl in *. now rewrite IH.
    + change (join (String c EmptyString) (String a seg :: seg' :: segs))
        with (String a (join (String c EmptyString) (seg :: seg' :: segs))).
      now rewrite IH.
Qed.

Lemma lastn_length {A} n (l : list A) :
  (n <= List.length l)%nat -> List.length (lastn n l) = n.
Proof. intros H. unfold lastn. rewrite length_skipn. lia. Qed.

Lemma firstn_lastn {A} n (l : list A) :
  (firstn (List.length l - n) l ++ lastn n l)%list = l.
Proof. apply firstn_skipn. Qed.

Lemma index_from_end_app {A} (h t : list A) k x :
  nth_error t (List.length t - k) = Some x -> (1 <= k <= List.length t)%nat ->
  index_from_end (h ++ t)%list k = Ok x.
Proof.
  intros Hx Hk. unfold index_from_end. rewrite length_app.
  replace (k <=? List.length h + List.length t)%nat with true
    by (symmetry; apply Nat.leb_le; lia).
  rewrite nth_error_app2 by lia.
  replace (List.length h + List.length t - k - List.length h)%nat
    with (List.length t - k)%nat by lia.
  now rewrite Hx.
Qed.

(** [rfind_from] leaves [last] alone when the character does not occur, and
    otherwise finds the position whose suffix is the last segment. *)
Lemma rfind_from_spec c s : forall i last,
  (last < i)%Z ->
  let r := rfind_from c s i last in
  (occurs c s = false -> r = last) /\
  (occurs c s = true ->
     (i <= r)%Z /\ drop (Z.to_nat (r + 1 - i)) s = List.last (split c s) EmptyString).
Proof.
  induction s as [|a s IH]; intros i last Hlt; simpl.
  - split; [reflexivity | discriminate].
  - destruct (Ascii.eqb a c) eqn:E; simpl.
    + split; [discriminate|]. intros _.
      destruct (IH (i + 1)%Z i ltac:(lia)) as [Hno Hyes].
      destruct (occurs c s) eqn:Ho.
      * destruct (Hyes eq_refl) as [Hr Hd]. split; [lia|].
        replace (Z.to_nat (rfind_from c s (i + 1) i + 1 - i))
          with (S (Z.to_nat (rfind_from c s (i + 1) i + 1 - (i + 1)))) by lia.
        simpl. rewrite Hd.
        pose proof (split_not_nil c s). destruct (split c s); [congruence | reflexivity].
      * rewrite (Hno eq_refl). split; [lia|].
        replace (Z.to_nat (i + 1 - i)) with 1%nat by lia. simpl.
        rewrite (split_without_sep c s Ho). reflexivity.
    + destruct (IH (i + 1)%Z last ltac:(lia)) as [Hno Hyes].
      split; [exact Hno|]. intros Ho.
      destruct (Hyes Ho) as [Hr Hd]. split; [lia|].
      replace (Z.to_nat (rfind_from c s (i + 1) last + 1 - i))
        with (S (Z.to_nat (rfind_from c s (i + 1) last + 1 - (i + 1)))) by lia.
      simpl. rewrite Hd.
      assert (Hlen : (2 <= List.length (split c s))%nat).
      { clear - Ho. induction s as [|b s IHs]; simpl in *; [discriminate|].
        destruct (Ascii.eqb b c); simpl in *.
        - pose proof (split_length_pos c s). lia.
        - specialize (IHs Ho). destruct (split c s); simpl in *; lia. }
      destruct (split c s) as [|seg [|seg' segs]]; simpl in Hlen; try lia.
      reflexivity.
Qed.

(** [basename] is the last segment of the text. *)
Lemma basename_last_segment p :
  basename p = List.last (split slash p) EmptyString.
Proof.
  unfold basename, rfind.
  destruct (rfind_from_spec slash p 0 (-1) ltac:(lia)) as [Hno Hyes].
  destruct (occurs slash p) eqn:Ho.
  - destruct (Hyes eq_refl) as [_ Hd].
    now replace (rfind_from slash p 0 (-1) + 1 - 0)%Z
      with (rfind_from slash p 0 (-1) + 1)%Z in Hd by lia.
  - rewrite (Hno eq_refl). simpl. now rewrite (split_without_sep _ _ Ho).
Qed.

End StringFacts.

(* ================================================================== *)
(** * Key derivation: the processed key of a raw key                    *)
(* ================================================================== *)

Module KeyDerivationFacts.
Import StringFacts KeyDerivation.

Lemma occurs_app c a b : occurs c (a ++ b) = occurs c a || occurs c b.
Proof. induction a as [|x a IH]; simpl; [reflexivity | now rewrite IH, orb_assoc]. Qed.

Lemma Forall_last_elem {A} (P : A -> Prop) (l : list A) d :
  Forall P l -> l <> [] -> P (List.last l d).
Proof.
  induction 1 as [|x l Hx Hall IH]; [congruence|]. intros _.
  destruct l as [|y l]; [exact Hx|]. apply IH. discriminate.
Qed.

(** A list with at least three elements ends in a triple. *)
Lemma last_three {A} (l : list A) :
  (3 <= List.length l)%nat ->
  exists h a b c, l = (h ++ [a; b; c])%list /\ lastn 3 l = [a; b; c].
Proof.
  intros H. pose proof (lastn_length 3 l H) as Hl.
  pose proof (firstn_lastn 3 l) as Hs.
  destruct (lastn 3 l) as [|a [|b [|c [|d t]]]]; try discriminate.
  exists (firstn (List.length l - 3) l), a, b, c. now split.
Qed.

(** The segments of a key that ends in a triple of slash-free segments. *)
Lemma split_raw_s3_key p a b c :
  occurs slash a = false -> occurs slash b = false -> occurs slash c = false ->
  split slash (p ++ "/" ++ a ++ "/" ++ b ++ "/" ++ c) = (split slash p ++ [a; b; c])%list.
Proof.
  intros Ha Hb Hc.
  change ("/" ++ a ++ "/" ++ b ++ "/" ++ c)
    with (String slash (a ++ String slash (b ++ String slash c))).
  rewrite !split_app.
  now rewrite (split_without_sep _ _ Ha), (split_without_sep _ _ Hb),
    (split_without_sep _ _ Hc).
Qed.

(** The key derived when the segments end in [a; b; c]. *)
Lemma new_s3_key_triple prefix key h a b c :
  split slash key = (h ++ [a; b; c])%list -> h <> [] ->
  new_s3_key prefix key = Ok (prefix ++ "/" ++ a ++ "/" ++ b ++ "/" ++ c).
Proof.
  intros Hs Hh. unfold new_s3_key. rewrite Hs.
  replace (4 <=? List.length (h ++ [a; b; c]))%nat with true.
  - rewrite (index_from_end_app h [a; b; c] 3 a), (index_from_end_app h [a; b; c] 2 b),
      (index_from_end_app h [a; b; c] 1 c); simpl; try reflexivity; lia.
  - symmetry. apply Nat.leb_le. rewrite length_app. simpl.
    destruct h; [congruence | simpl; lia].
Qed.

(** C3. A key with at least four segments derives to the processed prefix
    followed by its last three segments joined by ['/']: the derivation
    succeeds, the triple has exactly three segments, and it is a suffix of
    the original key, taken over verbatim. *)
Theorem processed_key_of_well_formed_key (processed_prefix original_key : string) :
  (4 <= List.length (split slash original_key))%nat ->
  new_s3_key processed_prefix original_key
    = Ok (processed_prefix ++ "/" ++ join "/" (lastn 3 (split slash original_key)))
  /\ List.length (lastn 3 (split slash original_key)) = 3%nat
  /\ exists before,
       original_key = before ++ "/" ++ join "/" (lastn 3 (split slash original_key)).
Proof.
  intros H.
  destruct (last_three (split slash original_key) ltac:(lia)) as (h & a & b & c & Hs & Hl).
  assert (Hh : h <> []).
  { intros ->. rewrite Hs in H. simpl in H. lia. }
  rewrite Hl. repeat split.
  - now rewrite (new_s3_key_triple _ _ h a b c Hs Hh).
  - exists (join "/" h).
    rewrite <- (join_split slash original_key) at 1. rewrite Hs.
    apply join_app; [assumption | discriminate].
Qed.

(** C3, at the key of the specification's example. *)
Lemma processed_key_of_well_formed_key_example :
  new_s3_key "processed_data"
    "financial_data/market_data/2024-01-01/market_data_2024-01-01_103000.json"
  = Ok "processed_data/market_data/2024-01-01/market_data_2024-01-01_103000.json".
Proof.
  refine (proj1 (processed_key_of_well_formed_key "processed_data"
    "financial_data/market_data/2024-01-01/market_data_2024-01-01_103000.json" _)).
  vm_compute. lia.
Defined.

(** C4. A key with fewer than four segments derives to the processed
    prefix, the segment [unclassified] and the key's base name.  The base
    name is the key's last segment and holds no ['/'], so the derived key
    consists of the prefix's segments, [unclassified] and the base name;
    it therefore differs from every key derived from a well-formed key. *)
Theorem processed_key_of_malformed_key (processed_prefix original_key : string) :
  (List.length (split slash original_key) < 4)%nat ->
  new_s3_key processed_prefix original_key
    = Ok (processed_prefix ++ "/unclassified/" ++ basename original_key)
  /\ basename original_key = List.last (split slash original_key) ""
  /\ split slash (processed_prefix ++ "/unclassified/" ++ basename original_key)
     = (split slash processed_prefix ++ ["unclassified"; basename original_key])%list
  /\ forall well_formed_key,
       (4 <= List.length (split slash well_formed_key))%nat ->
       new_s3_key processed_prefix well_formed_key
         <> new_s3_key processed_prefix original_key.
Proof.
  intros H.
  assert (Hkey : new_s3_key processed_prefix original_key
                 = Ok (processed_prefix ++ "/unclassified/" ++ basename original_key)).
  { unfold new_s3_key.
    replace (4 <=? List.length (split slash original_key))%nat with false;
      [reflexivity | symmetry; apply Nat.leb_gt; lia]. }
  assert (Hbase : occurs slash (basename original_key) = false).
  { rewrite basename_last_segment.
    apply (Forall_last_elem (fun seg => occurs slash seg = false));
      [apply split_segments_without_sep | apply split_not_nil]. }
  assert (Hsegs : split slash (processed_prefix ++ "/unclassified/" ++ basename original_key)
                  = (split slash processed_prefix
                       ++ ["unclassified"; basename original_key])%list).
  { change ("/unclassified/" ++ basename original_key)
      with (String slash ("unclassified" ++ String slash (basename original_key))).
    rewrite !split_app, (split_without_sep _ _ Hbase). reflexivity. }
  repeat split; try assumption.
  - apply basename_last_segment.
  - intros k Hk Heq. rewrite Hkey in Heq.
    destruct (last_three (split slash k) ltac:(lia)) as (h & a & b & c & Hs & Hl).
    assert (Hh : h <> []).
    { intros ->. rewrite Hs in Hk. simpl in Hk. lia. }
    rewrite (new_s3_key_triple _ _ h a b c Hs Hh) in Heq.
    assert (Hlen : List.length (split slash
                      (processed_prefix ++ "/" ++ a ++ "/" ++ b ++ "/" ++ c))
                   = List.length (split slash
                      (processed_prefix ++ "/unclassified/" ++ basename original_key)))
      by congruence.
    clear Heq. rename Hlen into Heq. rewrite Hsegs in Heq.
    pose proof (split_segments_without_sep slash k) as Hall.
    rewrite Hs in Hall. apply Forall_app in Hall as [_ Hall].
    inversion Hall as [|? ? Ha Hall']; subst.
    inversion Hall' as [|? ? Hb Hall'']; subst.
    inversion Hall'' as [|? ? Hc _]; subst.
    rewrite (split_raw_s3_key _ _ _ _ Ha Hb Hc) in Heq.
    rewrite !length_app in Heq. simpl in Heq. lia.
Qed.

(** C4, at the key of the specification's example. *)
Lemma processed_key_of_malformed_key_example :
  new_s3_key "processed_data" "abc.json" = Ok "processed_data/unclassified/abc.json".
Proof.
  refine (proj1 (processed_key_of_malformed_key "processed_data" "abc.json" _)).
  vm_compute. lia.
Defined.

(** C5. Path symmetry: the key the Puller writes,
    [{prefix}/{data_type}/{date}/{filename}] with no ['/'] in the last three
    parts, derives to [{processed_prefix}/{data_type}/{date}/{filename}];
    the same holds for the file name the Puller builds from a slash-free
    time stamp. *)
Theorem path_symmetry (s3_prefix processed_prefix data_type date_str filename : string) :
  occurs slash data_type = false ->
  occurs slash date_str = false ->
  occurs slash filename = false ->
  new_s3_key processed_prefix (raw_s3_key s3_prefix data_type date_str filename)
    = Ok (raw_s3_key processed_prefix data_type date_str filename)
  /\ raw_s3_key processed_prefix data_type date_str filename
     = processed_prefix ++ "/" ++ data_type ++ "/" ++ date_str ++ "/" ++ filename
  /\ forall hhmmss, occurs slash hhmmss = false ->
       new_s3_key processed_prefix
         (raw_s3_key s3_prefix data_type date_str (file_name data_type date_str hhmmss))
       = Ok (raw_s3_key processed_prefix data_type date_str
               (file_name data_type date_str hhmmss)).
Proof.
  intros Hd Ht Hf.
  assert (Hgen : forall fn, occurs slash fn = false ->
            new_s3_key processed_prefix (raw_s3_key s3_prefix data_type date_str fn)
            = Ok (raw_s3_key processed_prefix data_type date_str fn)).
  { intros fn Hfn. unfold raw_s3_key.
    apply (new_s3_key_triple _ _ (split slash s3_prefix)).
    - now apply split_raw_s3_key.
    - apply split_not_nil. }
  repeat split.
  - now apply Hgen.
  - intros hhmmss Hh. apply Hgen. unfold file_name.
    rewrite !occurs_app, Hd, Ht, Hh. reflexivity.
Qed.

(** C5, at the raw key of a market-data pull. *)
Lemma path_symmetry_example :
  new_s3_key "processed_data"
    (raw_s3_key "financial_data" "market_data" "2024-01-01"
       (file_name "market_data" "2024-01-01" "103000"))
  = Ok "processed_data/market_data/2024-01-01/market_data_2024-01-01_103000.json".
Proof.
  refine (proj1 (path_symmetry "financial_data" "processed_data" "market_data"
                   "2024-01-01" (file_name "market_data" "2024-01-01" "103000") _ _ _));
    reflexivity.
Defined.

End KeyDerivationFacts.

(* ================================================================== *)
(** * The Normalizer                                                    *)
(* ================================================================== *)

Module NormalizerFacts.
Import Normalizer Spec.

Section WithRuntime.
Context {rt : Runtime}.

Lemma get_of_dict d k default :
  get (JObj d) k default
  = Ok (match dict_lookup d k with Some v => v | None => default end).
Proof. reflexivity. Qed.

Lemma company_record_of_dict d : company_record (JObj d) = Ok (five_fields d).
Proof. reflexivity. Qed.

Lemma all_values_five_fields d : all_values (five_fields d) = retained d.
Proof.
  unfold all_values, retained, five_fields. simpl.
  rewrite andb_true_r. now rewrite !andb_assoc.
Qed.

(** The loop appends to what it was given the retained records, mapped. *)
Lemma company_loop_spec records : forall processed_data,
  company_loop (map JObj records) processed_data
  = Ok (processed_data
          ++ map (fun d => JObj (five_fields d)) (filter retained records))%list.
Proof.
  induction records as [|d records IH]; intros acc.
  - simpl. now rewrite app_nil_r.
  - cbn [map company_loop]. rewrite company_record_of_dict. cbn [rbind].
    rewrite all_values_five_fields, IH. cbn [filter].
    destruct (retained d); cbn [map]; [|reflexivity].
    now rewrite <- app_assoc.
Qed.

(** C2. On a sequence of [company_financials] records the Normalizer
    returns, in input order, the five-field mapping (with [netIncome]
    renamed to [net_income]) of exactly the records whose five extracted
    values are all truthy; a record is retained if and only if each of the
    five is truthy, and a record whose revenue is [0] is not. *)
Theorem company_financials_completeness_filter (records : list dict) :
  transform_financial_data (JArr (map JObj records)) "company_financials"
    = Ok (JArr (map (fun d => JObj (five_fields d)) (filter retained records)))
  /\ (forall d, retained d = true <->
        truthy (field d "symbol") = true /\ truthy (field d "date") = true /\
        truthy (field d "revenue") = true /\ truthy (field d "netIncome") = true /\
        truthy (field d "currency") = true)
  /\ (forall d, In d (filter retained records) <-> In d records /\ retained d = true)
  /\ (forall d, field d "revenue" = JInt 0 -> retained d = false).
Proof.
  split; [|split; [|split]].
  - unfold transform_financial_data. cbn [String.eqb Ascii.eqb Bool.eqb iter rbind].
    now rewrite company_loop_spec.
  - intros d. unfold retained. rewrite !andb_true_iff. tauto.
  - intros d. apply filter_In.
  - intros d H. unfold retained. rewrite H. simpl.
    now rewrite andb_false_r.
Qed.

(** C6. A data type other than [company_financials] and [market_data]
    leaves the input as it is, whatever the input. *)
Theorem unknown_data_type_is_identity (raw_data : json) (data_type : string) :
  data_type <> "company_financials" ->
  data_type <> "market_data" ->
  transform_financial_data raw_data data_type = Ok raw_data.
Proof.
  intros H1 H2. unfold transform_financial_data.
  apply String.eqb_neq in H1, H2. now rewrite H1, H2.
Qed.

(** X1. The daily change of a record that has an [open] field: the formula of
    the specification, and [0] when [open] is zero. *)
Lemma daily_change_pct_with_open d open_v open close :
  dict_lookup d "open" = Some open_v ->
  py_float open_v = Ok open ->
  py_float (match dict_lookup d "close" with Some v => v | None => JInt 0 end) = Ok close ->
  daily_change_pct (JObj d)
  = Ok (if PrimFloat.eqb open 0%float then JInt 0
        else JFloat ((close - open) / open * 100)%float).
Proof.
  intros Ho Hf Hc. unfold daily_change_pct. rewrite !get_of_dict, Ho. simpl.
  rewrite Hf. simpl.
  destruct (PrimFloat.eqb open 0%float) eqn:E; simpl; [reflexivity|].
  rewrite Hc. simpl. unfold truediv. now rewrite E.
Qed.

(** The daily change of a record without an [open] field: the divisor
    defaults to [1] while the reported [open] defaults to [0], so the
    result is [close * 100], not [0]. *)
Lemma daily_change_pct_without_open d close :
  dict_lookup d "open" = None ->
  py_float (match dict_lookup d "close" with Some v => v | None => JInt 0 end) = Ok close ->
  daily_change_pct (JObj d) = Ok (JFloat ((close - 0) / 1 * 100)%float).
Proof.
  intros Ho Hc. unfold daily_change_pct. rewrite !get_of_dict, Ho.
  change (py_float (JInt 1)) with (Ok 1%float).
  change (py_float (JInt 0)) with (Ok 0%float).
  simpl. now rewrite Hc.
Qed.

(** C1, on the code: a [market_data] record with [close = 50] and no
    [open] field is normalised to [open = 0.0] and
    [daily_change_pct = 5000.0]. *)
Theorem market_record_without_open :
  transform_financial_data (JArr [JObj [("close", JInt 50)]]) "market_data"
  = Ok (JArr [JObj [("index", JNull); ("date", JNull); ("open", JFloat 0);
                    ("close", JFloat 50); ("volume", JInt 0);
                    ("daily_change_pct", JFloat 5000)]]).
Proof. reflexivity. Qed.

End WithRuntime.

(** C2, on the record of the specification's example: revenue [0]. *)
Lemma company_financials_completeness_filter_example :
  transform_financial_data (rt := Examples.example_runtime)
    (JArr [JObj [("symbol", JStr "AAPL"); ("date", JStr "2024-01-01");
                 ("revenue", JInt 0); ("netIncome", JInt 500);
                 ("currency", JStr "USD")];
           JObj [("symbol", JStr "MSFT"); ("date", JStr "2024-01-01");
                 ("revenue", JInt 7); ("netIncome", JInt 500);
                 ("currency", JStr "USD")]])
    "company_financials"
  = Ok (JArr [JObj [("symbol", JStr "MSFT"); ("date", JStr "2024-01-01");
                    ("revenue", JInt 7); ("net_income", JInt 500);
                    ("currency", JStr "USD")]]).
Proof.
  exact (proj1 (company_financials_completeness_filter (rt := Examples.example_runtime)
    [[("symbol", JStr "AAPL"); ("date", JStr "2024-01-01");
      ("revenue", JInt 0); ("netIncome", JInt 500); ("currency", JStr "USD")];
     [("symbol", JStr "MSFT"); ("date", JStr "2024-01-01");
      ("revenue", JInt 7); ("netIncome", JInt 500); ("currency", JStr "USD")]])).
Defined.

(** The daily change of the specification's example: open [100], close
    [110], change [10.0]. *)
Lemma daily_change_pct_with_open_example :
  daily_change_pct (rt := Examples.example_runtime)
    (JObj [("open", JInt 100); ("close", JInt 110)])
  = Ok (JFloat 10).
Proof.
  exact (daily_change_pct_with_open (rt := Examples.example_runtime)
           [("open", JInt 100); ("close", JInt 110)] (JInt 100) 100 110
           eq_refl eq_refl eq_refl).
Defined.

(** C6, on the tag [unknown]. *)
Lemma unknown_data_type_is_identity_example :
  transform_financial_data (rt := Examples.example_runtime)
    (JObj [("anything", JInt 1)]) "unknown"
  = Ok (JObj [("anything", JInt 1)]).
Proof.
  apply (unknown_data_type_is_identity (rt := Examples.example_runtime));
    discriminate.
Defined.

End NormalizerFacts.

(* ================================================================== *)
(** * try/except and loops                                              *)
(* ================================================================== *)

Module EffectsFacts.
Import Spec.

Section WithWorld.
Context {W : Type}.

(** A [try] whose clauses all re-raise behaves as its body. *)
Lemma try_except_reraise {A} (body : M W A) clauses w :
  (forall cl, In cl clauses -> forall e, snd cl e = raise e) ->
  try_except body clauses w = body w.
Proof.
  intros H. unfold try_except. destruct (body w) as [w' [a|e]]; [reflexivity|].
  destruct (find (fun cl => fst cl e) clauses) as [cl|] eqn:E; [|reflexivity].
  apply find_some in E as [Hin _]. now rewrite (H cl Hin e).
Qed.

Lemma for_each_returns (step : json -> M W unit) l : forall w w' u,
  for_each step l w = (w', Ok u) <-> u = tt /\ processed_all step l w w'.
Proof.
  induction l as [|r l IH]; intros w w' u; simpl.
  - unfold ret. split.
    + intros H. injection H as -> <-. split; [reflexivity | constructor].
    + intros [-> H]. inversion H; subst. reflexivity.
  - unfold bind. destruct (step r w) as [w1 [[]|e]] eqn:E.
    + rewrite IH. split.
      * intros [-> H]. split; [reflexivity | econstructor; eassumption].
      * intros [-> H]. split; [reflexivity|].
        inversion H; subst. rewrite E in *. congruence.
    + split; [discriminate|]. intros [_ H]. inversion H; subst. congruence.
Qed.

Lemma for_each_raises (step : json -> M W unit) l : forall w w' e,
  for_each step l w = (w', Err e) <-> fails_with step l w w' e.
Proof.
  induction l as [|r l IH]; intros w w' e; simpl.
  - unfold ret. split; [discriminate | intros H; inversion H].
  - unfold bind. destruct (step r w) as [w1 [[]|e1]] eqn:E.
    + rewrite IH. split.
      * intros H. eapply fails_later; eassumption.
      * intros H. inversion H; subst; [congruence|].
        rewrite E in *. congruence.
    + split.
      * intros H. injection H as -> ->. now apply fails_here.
      * intros H. inversion H; subst; congruence.
Qed.

Lemma ingested_app {A} (ingest : A -> M W string) l1 l2 : forall w w1 w2 k1 k2,
  ingested ingest l1 w w1 k1 -> ingested ingest l2 w1 w2 k2 ->
  ingested ingest (l1 ++ l2)%list w w2 (k1 ++ k2)%list.
Proof.
  intros w w1 w2 k1 k2 H1 H2. induction H1; simpl.
  - assumption.
  - eapply ingested_ok; eauto.
  - eapply ingested_failed; eauto.
Qed.

Lemma ingested_map {A B} (g : A -> B) (ingest : B -> M W string) l : forall w w' keys,
  ingested (fun x => ingest (g x)) l w w' keys ->
  ingested ingest (map g l) w w' keys.
Proof.
  intros w w' keys H. induction H; simpl.
  - constructor.
  - eapply ingested_ok; eauto.
  - eapply ingested_failed; eauto.
Qed.

End WithWorld.
End EffectsFacts.

(* ================================================================== *)
(** * The Puller                                                        *)
(* ================================================================== *)

Module PullerFacts.
Import Puller Spec EffectsFacts.

Section WithServices.
Context {rt : Runtime} {W : Type} {sv : Services W}.
Variable self : FinancialDataIngestor.

Lemma fetch_is_the_request endpoint params w :
  _fetch_data_from_api self endpoint params w
  = requests_get (api_base_url self ++ "/" ++ endpoint)
      [("Authorization", "Bearer " ++ api_key self)] params w.
Proof.
  unfold _fetch_data_from_api. apply try_except_reraise.
  intros cl [<-|[<-|[]]] e; reflexivity.
Qed.

Lemma upload_is_the_put data data_type date_str w :
  _upload_to_s3 self data data_type date_str w
  = (let s3_key := KeyDerivation.raw_s3_key (s3_prefix self) data_type date_str
                     (KeyDerivation.file_name data_type date_str (hhmmss w)) in
     _ <-- s3_put_object (s3_bucket_name self) s3_key (json_dumps data) ;;
     _ <-- lift (py_len data) ;;
     ret s3_key) w.
Proof.
  unfold _upload_to_s3. apply try_except_reraise.
  intros cl [<-|[<-|[]]] e; reflexivity.
Qed.

Lemma fetch_then_upload_raises_exceptions endpoint params data_type w w' e :
  api_raises_exceptions -> storage_raises_exceptions ->
  (data <-- _fetch_data_from_api self endpoint params ;;
   fun w => _upload_to_s3 self data data_type (today w) w) w = (w', Err e) ->
  is_Exception e = true.
Proof.
  intros Hapi Hs3. unfold bind at 1. rewrite fetch_is_the_request.
  destruct (requests_get _ _ _ w) as [w1 [data|e1]] eqn:E.
  - rewrite upload_is_the_put. cbv zeta. unfold bind, lift.
    destruct (s3_put_object _ _ _ w1) as [w2 [[]|e2]] eqn:E2.
    + destruct data; cbn [py_len]; try discriminate;
        intros H; injection H as _ <-; reflexivity.
    + intros H. injection H as _ <-. eapply Hs3; eassumption.
  - intros H. injection H as _ <-. eapply Hapi; eassumption.
Qed.

Lemma ingest_item_raises_exceptions yesterday_str today_str it w w' e :
  api_raises_exceptions -> storage_raises_exceptions ->
  ingest_item self yesterday_str today_str it w = (w', Err e) ->
  is_Exception e = true.
Proof.
  intros Hapi Hs3. destruct it; simpl;
    unfold ingest_company_financials, ingest_market_data;
    now apply fetch_then_upload_raises_exceptions.
Qed.

(** One loop of the run: it returns, with the keys of the items that
    succeeded appended to the keys it was given. *)
Lemma ingest_loop_spec {A} (ingest : A -> M W string) items :
  (forall x w w' e, ingest x w = (w', Err e) -> is_Exception e = true) ->
  forall ingested_keys w,
  exists w' keys,
    ingest_loop ingest items ingested_keys w = (w', Ok (ingested_keys ++ keys)%list)
    /\ ingested ingest items w w' keys.
Proof.
  intros Hexn. induction items as [|x items IH]; intros acc w.
  - exists w, []. simpl. rewrite app_nil_r. split; [reflexivity | constructor].
  - cbn [ingest_loop]. unfold bind at 1, try_except, bind at 1.
    destruct (ingest x w) as [w1 [key|e]] eqn:E.
    + unfold ret at 1. destruct (IH (acc ++ [key])%list w1) as (w2 & keys & Hrun & Hing).
      exists w2, (key :: keys). rewrite Hrun, <- app_assoc. split; [reflexivity|].
      eapply ingested_ok; eassumption.
    + cbn [find fst snd]. rewrite (Hexn _ _ _ _ E). unfold ret at 1.
      destruct (IH acc w1) as (w2 & keys & Hrun & Hing).
      exists w2, keys. split; [assumption|].
      eapply ingested_failed; eassumption.
Qed.

(** C7. When the API and the storage raise errors (instances of
    [Exception]), the daily run over any symbols and market indices
    returns: no exception escapes.  What it returns are exactly the keys of
    the items whose ingestion succeeded, in order, symbols first; an item
    whose ingestion raised is passed over and the run continues with the
    items after it. *)
Theorem run_daily_ingestion_tolerates_failures (symbols market_indices : list string) (w : W) :
  api_raises_exceptions -> storage_raises_exceptions ->
  exists w' keys,
    run_daily_ingestion self symbols market_indices w = (w', Ok keys)
    /\ ingested (ingest_item self (yesterday w) (today w))
         (map Financials symbols ++ map Market market_indices)%list w w' keys.
Proof.
  intros Hapi Hs3. unfold run_daily_ingestion. cbv zeta. unfold bind at 1.
  destruct (ingest_loop_spec
              (fun symbol => ingest_item self (yesterday w) (today w) (Financials symbol))
              symbols
              (fun x w0 w' e => ingest_item_raises_exceptions _ _ _ w0 w' e Hapi Hs3)
              [] w) as (w1 & keys1 & Hrun1 & Hing1).
  cbn [ingest_item] in Hrun1. rewrite Hrun1.
  destruct (ingest_loop_spec
              (fun market_index =>
                 ingest_item self (yesterday w) (today w) (Market market_index))
              market_indices
              (fun x w0 w' e => ingest_item_raises_exceptions _ _ _ w0 w' e Hapi Hs3)
              ([] ++ keys1)%list w1) as (w2 & keys2 & Hrun2 & Hing2).
  cbn [ingest_item] in Hrun2. rewrite Hrun2.
  exists w2, (keys1 ++ keys2)%list. split; [reflexivity|].
  eapply ingested_app; apply ingested_map; eassumption.
Qed.

End WithServices.

Lemma example_api_raises_exceptions :
  api_raises_exceptions (sv := Examples.example_services).
Proof.
  intros url headers params w w' e. simpl.
  destruct (contains "MSFT" url); intros H; [|discriminate].
  injection H as _ <-. reflexivity.
Defined.

Lemma example_storage_raises_exceptions :
  storage_raises_exceptions (sv := Examples.example_services).
Proof. intros bucket key body w w' e. simpl. discriminate. Defined.

(** C7, on three symbols of which [MSFT] fails, and one index. *)
Lemma run_daily_ingestion_tolerates_failures_example :
  exists w' keys,
    run_daily_ingestion (rt := Examples.example_runtime) (sv := Examples.example_services)
      Examples.example_ingestor ["AAPL"; "MSFT"; "GOOGL"] ["SPX"] Examples.start
    = (w', Ok keys)
    /\ ingested (ingest_item (rt := Examples.example_runtime)
                   (sv := Examples.example_services)
                   Examples.example_ingestor "2024-01-01" "2024-01-02")
         [Financials "AAPL"; Financials "MSFT"; Financials "GOOGL"; Market "SPX"]
         Examples.start w' keys.
Proof.
  exact (run_daily_ingestion_tolerates_failures
           (rt := Examples.example_runtime) (sv := Examples.example_services)
           Examples.example_ingestor ["AAPL"; "MSFT"; "GOOGL"] ["SPX"] Examples.start
           example_api_raises_exceptions example_storage_raises_exceptions).
Defined.

(** A run against an API that answers [null]: the object is written, the
    log line then raises [TypeError] on [len(data)], and the run passes the
    symbol over, so no key is returned for it. *)
Example run_daily_ingestion_null_answer :
  run_daily_ingestion (rt := Examples.example_runtime)
    (sv := MoreExamples.null_answer_services)
    Examples.example_ingestor ["AAPL"] [] Examples.start
  = ((1%nat,
      ["financial_data/company_financials/2024-01-02/company_financials_2024-01-02_103000.json"]),
     Ok []).
Proof. reflexivity. Qed.

(** The same run, evaluated: the keys of the two symbols that succeeded
    and of the index. *)
Example run_daily_ingestion_one_of_three_fails :
  snd (run_daily_ingestion (rt := Examples.example_runtime)
         (sv := Examples.example_services)
         Examples.example_ingestor ["AAPL"; "MSFT"; "GOOGL"] [] Examples.start)
  = Ok ["financial_data/company_financials/2024-01-02/company_financials_2024-01-02_103001.json";
        "financial_data/company_financials/2024-01-02/company_financials_2024-01-02_103003.json"].
Proof. reflexivity. Qed.

End PullerFacts.

(* ================================================================== *)
(** * The Reactor                                                       *)
(* ================================================================== *)

Module ReactorFacts.
Import Reactor Spec EffectsFacts.

Section WithServices.
Context {rt : Runtime} {W : Type} {sv : Services W}.
Variable cfg : config.

(** The handler on an event whose [Records] are [records]: the loop, then
    the acknowledgment. *)
Lemma lambda_handler_unfold event records_v records w :
  subscript event "Records" = Ok records_v ->
  iter records_v = Ok records ->
  lambda_handler cfg event w
  = match for_each (handle_record cfg) records w with
    | (w', Ok _) => (w', Ok acknowledgment)
    | (w', Err e) => (w', Err e)
    end.
Proof.
  intros Hs Hi. unfold lambda_handler, bind, lift, ret. rewrite Hs, Hi.
  destruct (for_each (handle_record cfg) records w) as [w' [u|e]]; reflexivity.
Qed.

(** The [try] block of one notification re-raises what it catches. *)
Lemma process_object_unguarded bucket key w :
  process_object cfg bucket key w
  = (raw_data <-- load_raw_data_from_s3 bucket key ;;
     key_parts <-- lift (split_slash key) ;;
     processed_data <-- lift (Normalizer.transform_financial_data raw_data
                                (data_type_of key_parts)) ;;
     processed_s3_key <-- upload_processed_data_to_s3 cfg processed_data key ;;
     ret tt) w.
Proof.
  unfold process_object. apply try_except_reraise.
  intros cl [<-|[]] e; reflexivity.
Qed.

(** An exception raised by a stage of one notification (load, type
    inference, normalisation, upload) is raised by [process_object]. *)
Lemma process_object_raises bucket key w w' e :
  load_raw_data_from_s3 bucket key w = (w', Err e)
  \/ (exists raw_data,
        load_raw_data_from_s3 bucket key w = (w', Ok raw_data)
        /\ (split_slash key = Err e
            \/ exists key_parts,
                 split_slash key = Ok key_parts
                 /\ Normalizer.transform_financial_data raw_data (data_type_of key_parts)
                    = Err e))
  \/ (exists raw_data key_parts processed_data w1,
        load_raw_data_from_s3 bucket key w = (w1, Ok raw_data)
        /\ split_slash key = Ok key_parts
        /\ Normalizer.transform_financial_data raw_data (data_type_of key_parts)
           = Ok processed_data
        /\ upload_processed_data_to_s3 cfg processed_data key w1 = (w', Err e)) ->
  process_object cfg bucket key w = (w', Err e).
Proof.
  rewrite process_object_unguarded. unfold bind at 1.
  intros [H | [(raw & H & [Hk | (parts & Hk & Ht)])
             | (raw & parts & processed & w1 & H & Hk & Ht & Hu)]];
    rewrite H; try reflexivity; unfold bind, lift; rewrite Hk; try reflexivity;
    rewrite Ht; try reflexivity.
  now rewrite Hu.
Qed.

(** A record that names a bucket and a key is handled by [process_object]. *)
Lemma handle_record_with_s3 d s3 bucket_obj bucket object_obj key w :
  dict_lookup d "s3" = Some s3 ->
  subscript s3 "bucket" = Ok bucket_obj -> subscript bucket_obj "name" = Ok bucket ->
  subscript s3 "object" = Ok object_obj -> subscript object_obj "key" = Ok key ->
  handle_record cfg (JObj d) w = process_object cfg bucket key w.
Proof.
  intros Hd Hb Hn Ho Hk. unfold handle_record, bind, lift. simpl.
  rewrite Hd, Hb, Hn, Ho, Hk. reflexivity.
Qed.

(** A record without ['s3'] is passed over: nothing is loaded, normalised
    or written, and the world is as it was. *)
Lemma handle_record_lacking_s3 record w :
  lacks_s3 record = true -> handle_record cfg record w = (w, Ok tt).
Proof.
  unfold lacks_s3, handle_record, bind, lift.
  destruct (not_in "s3" record) as [[|]|]; [reflexivity | discriminate | discriminate].
Qed.

Lemma for_each_skips records : forall w,
  for_each (handle_record cfg) records w
  = for_each (handle_record cfg) (filter (fun r => negb (lacks_s3 r)) records) w.
Proof.
  induction records as [|r records IH]; intros w; [reflexivity|].
  cbn [for_each filter]. destruct (lacks_s3 r) eqn:E; cbn [negb].
  - unfold bind at 1. rewrite (handle_record_lacking_s3 r w E). apply IH.
  - cbn [for_each]. unfold bind.
    destruct (handle_record cfg r w) as [w1 [u|e]]; [apply IH | reflexivity].
Qed.

(** C8. On an event whose [Records] are [records], the handler raises
    [e] exactly when some notification raises [e], the ones before it
    having been handled (the notifications after it are not handled, and
    nothing is returned); it returns exactly when every notification was
    handled without error, and what it returns is the fixed acknowledgment.
    Whatever a stage of a notification raises, the notification raises. *)
Theorem lambda_handler_fails_fast (event records_v : json) (records : list json) (w : W) :
  subscript event "Records" = Ok records_v ->
  iter records_v = Ok records ->
  (forall w' e,
     fails_with (handle_record cfg) records w w' e
     <-> lambda_handler cfg event w = (w', Err e))
  /\ (forall w' v,
        lambda_handler cfg event w = (w', Ok v)
        <-> v = acknowledgment /\ processed_all (handle_record cfg) records w w')
  /\ (forall d s3 bucket_obj bucket object_obj key w0 w1 e,
        dict_lookup d "s3" = Some s3 ->
        subscript s3 "bucket" = Ok bucket_obj -> subscript bucket_obj "name" = Ok bucket ->
        subscript s3 "object" = Ok object_obj -> subscript object_obj "key" = Ok key ->
        load_raw_data_from_s3 bucket key w0 = (w1, Err e)
        \/ (exists raw_data,
              load_raw_data_from_s3 bucket key w0 = (w1, Ok raw_data)
              /\ (split_slash key = Err e
                  \/ exists key_parts,
                       split_slash key = Ok key_parts
                       /\ Normalizer.transform_financial_data raw_data
                            (data_type_of key_parts) = Err e))
        \/ (exists raw_data key_parts processed_data w2,
              load_raw_data_from_s3 bucket key w0 = (w2, Ok raw_data)
              /\ split_slash key = Ok key_parts
              /\ Normalizer.transform_financial_data raw_data (data_type_of key_parts)
                 = Ok processed_data
              /\ upload_processed_data_to_s3 cfg processed_data key w2 = (w1, Err e)) ->
        handle_record cfg (JObj d) w0 = (w1, Err e)).
Proof.
  intros Hs Hi. pose proof (lambda_handler_unfold event records_v records w Hs Hi) as Hh.
  split; [|split].
  - intros w' e. rewrite <- for_each_raises, Hh.
    destruct (for_each (handle_record cfg) records w) as [w1 [u|e1]].
    + split; discriminate.
    + split; intros H; injection H as -> ->; reflexivity.
  - intros w' v. rewrite Hh.
    destruct (for_each (handle_record cfg) records w) as [w1 [u|e1]] eqn:E.
    + split.
      * intros H. injection H as <- <-. split; [reflexivity|].
        exact (proj2 (proj1 (for_each_returns _ _ _ _ _) E)).
      * intros [-> H].
        assert (Hf : for_each (handle_record cfg) records w = (w', Ok tt))
          by (apply for_each_returns; now split).
        congruence.
    + split; [discriminate|]. intros [_ H].
      assert (Hf : for_each (handle_record cfg) records w = (w', Ok tt))
        by (apply for_each_returns; now split).
      congruence.
  - intros d s3 bucket_obj bucket object_obj key w0 w1 e Hd Hb Hn Ho Hk Hstage.
    rewrite (handle_record_with_s3 d s3 bucket_obj bucket object_obj key w0 Hd Hb Hn Ho Hk).
    now apply process_object_raises.
Qed.

(** C10. Entries of [Records] without ['s3'] are passed over without
    raising and without touching the world: the handler does on the event
    what it does on the event without those entries, and when every other
    entry is handled without error it returns the acknowledgment. *)
Theorem records_without_s3_are_skipped (event records_v : json) (records : list json) (w : W) :
  subscript event "Records" = Ok records_v ->
  iter records_v = Ok records ->
  (forall record w0, In record records -> lacks_s3 record = true ->
     handle_record cfg record w0 = (w0, Ok tt))
  /\ lambda_handler cfg event w
     = lambda_handler cfg
         (JObj [("Records", JArr (filter (fun r => negb (lacks_s3 r)) records))]) w
  /\ (forall w',
        processed_all (handle_record cfg)
          (filter (fun r => negb (lacks_s3 r)) records) w w' ->
        lambda_handler cfg event w = (w', Ok acknowledgment)).
Proof.
  intros Hs Hi.
  assert (Heq : lambda_handler cfg event w
                = lambda_handler cfg
                    (JObj [("Records", JArr (filter (fun r => negb (lacks_s3 r)) records))]) w).
  { rewrite (lambda_handler_unfold event records_v records w Hs Hi).
    rewrite (lambda_handler_unfold
               (JObj [("Records", JArr (filter (fun r => negb (lacks_s3 r)) records))])
               (JArr (filter (fun r => negb (lacks_s3 r)) records))
               (filter (fun r => negb (lacks_s3 r)) records) w eq_refl eq_refl).
    now rewrite for_each_skips. }
  split; [|split].
  - intros record w0 _ H. now apply handle_record_lacking_s3.
  - exact Heq.
  - intros w' H. rewrite Heq.
    rewrite (lambda_handler_unfold
               (JObj [("Records", JArr (filter (fun r => negb (lacks_s3 r)) records))])
               (JArr (filter (fun r => negb (lacks_s3 r)) records))
               (filter (fun r => negb (lacks_s3 r)) records) w eq_refl eq_refl).
    assert (Hf : for_each (handle_record cfg)
                   (filter (fun r => negb (lacks_s3 r)) records) w = (w', Ok tt))
      by (apply for_each_returns; now split).
    now rewrite Hf.
Qed.

End WithServices.

(** C8, on a batch of three notifications of which the second names an
    object that is not there: the handler raises the storage error, having
    written the processed copy of the first object only. *)
Lemma lambda_handler_fails_fast_example :
  lambda_handler (rt := Examples.example_runtime) (sv := Examples.example_services)
    Examples.example_config (Examples.event_of Examples.batch_with_missing_object)
    Examples.start
  = ((O, ["processed_data/market_data/2024-01-01/a.json"]),
     Err (Raised ClientError "NoSuchKey")).
Proof.
  apply (proj1 (proj1 (lambda_handler_fails_fast
                         (rt := Examples.example_runtime)
                         (sv := Examples.example_services)
                         Examples.example_config
                         (Examples.event_of Examples.batch_with_missing_object)
                         (JArr Examples.batch_with_missing_object)
                         Examples.batch_with_missing_object
                         Examples.start eq_refl eq_refl) _ _)).
  eapply fails_later; [reflexivity|].
  apply fails_here. reflexivity.
Defined.

(** C10, on a batch whose first entry has no ['s3']: the handler returns
    the acknowledgment, having processed the second entry only. *)
Lemma records_without_s3_are_skipped_example :
  lambda_handler (rt := Examples.example_runtime) (sv := Examples.example_services)
    Examples.example_config (Examples.event_of Examples.batch_with_foreign_entry)
    Examples.start
  = ((O, ["processed_data/market_data/2024-01-01/a.json"]), Ok acknowledgment).
Proof.
  apply (proj2 (proj2 (records_without_s3_are_skipped
                         (rt := Examples.example_runtime)
                         (sv := Examples.example_services)
                         Examples.example_config
                         (Examples.event_of Examples.batch_with_foreign_entry)
                         (JArr Examples.batch_with_foreign_entry)
                         Examples.batch_with_foreign_entry
                         Examples.start eq_refl eq_refl))).
  eapply processed_cons; [reflexivity|]. apply processed_nil.
Defined.

End ReactorFacts.

(* ================================================================== *)
(** * The Credential Provider                                           *)
(* ================================================================== *)

Module SecretsFacts.
Import Secrets Spec.

Section WithServices.
Context {rt : Runtime} {W : Type} {sv : Services W}.

(** X23. The outcomes of [get_api_key_from_secret], once the secret store
    has answered with [payload]:
      - a payload that is not valid JSON raises [ValueError] with the
        not-valid-JSON message;
      - a payload that is a JSON object returns the value of the field when
        that value is truthy, and raises [ValueError] with the key-not-found
        message when the field is absent or its value is falsy;
      - a payload that is valid JSON but not an object raises the
        [AttributeError] of the failed [.get].
    The two [ValueError]s differ by their message. *)
Theorem get_api_key_from_secret_outcome (secret_arn key_name payload : string) (w w' : W) :
  get_secret secret_arn w = (w', Ok payload) ->
  get_api_key_from_secret secret_arn key_name w
    = (w', match json_loads payload with
           | None => Err (not_valid_json secret_arn)
           | Some (JObj d) =>
               if truthy (field d key_name) then Ok (field d key_name)
               else Err (key_not_found key_name secret_arn)
           | Some _ => Err (builtin AttributeError)
           end)
  /\ not_valid_json secret_arn <> key_not_found key_name secret_arn
  /\ class_of (not_valid_json secret_arn) = ValueError
  /\ class_of (key_not_found key_name secret_arn) = ValueError.
Proof.
  intros Hs. split; [|split; [discriminate | split; reflexivity]].
  unfold get_api_key_from_secret, bind at 1. rewrite Hs.
  unfold try_except, bind, lift.
  destruct (json_loads payload) as [v|]; [|reflexivity].
  destruct v; try reflexivity.
  cbn [get]. fold (field d key_name).
  destruct (truthy (field d key_name)); reflexivity.
Qed.

End WithServices.

(** X23, on the payload with the key [X]. *)
Lemma get_api_key_from_secret_outcome_example :
  get_api_key_from_secret (rt := Examples.example_runtime)
    (sv := Examples.example_services) "arn:key" "api_key" Examples.start
  = (Examples.start, Ok (JStr "X")).
Proof.
  exact (proj1 (get_api_key_from_secret_outcome
                  (rt := Examples.example_runtime) (sv := Examples.example_services)
                  "arn:key" "api_key" Examples.secret_with_key
                  Examples.start Examples.start eq_refl)).
Defined.

(** The payload [not-json] raises the not-valid-JSON error and the payload
    [{}] the key-not-found error. *)
Example get_api_key_from_secret_bad_payloads :
  get_api_key_from_secret (rt := Examples.example_runtime)
    (sv := Examples.example_services) "arn:text" "api_key" Examples.start
  = (Examples.start, Err (not_valid_json "arn:text"))
  /\ get_api_key_from_secret (rt := Examples.example_runtime)
       (sv := Examples.example_services) "arn:empty" "api_key" Examples.start
     = (Examples.start, Err (key_not_found "api_key" "arn:empty")).
Proof. split; reflexivity. Qed.

(** C9, on the code: the payload [[1]] is valid JSON and has no field
    [api_key]; what the code raises for it is an [AttributeError], neither
    the key-not-found error, which it raises for the payload [{}], nor the
    not-valid-JSON error. *)
Lemma get_api_key_from_secret_array_payload :
  get_secret (rt := Examples.example_runtime) (sv := Examples.example_services)
    "arn:list" Examples.start = (Examples.start, Ok "[1]")
  /\ json_loads (Runtime := Examples.example_runtime) "[1]" = Some (JArr [JInt 1])
  /\ get_api_key_from_secret (rt := Examples.example_runtime)
       (sv := Examples.example_services) "arn:list" "api_key" Examples.start
     = (Examples.start, Err (builtin AttributeError))
  /\ builtin AttributeError <> key_not_found "api_key" "arn:list"
  /\ builtin AttributeError <> not_valid_json "arn:list"
  /\ get_api_key_from_secret (rt := Examples.example_runtime)
       (sv := Examples.example_services) "arn:empty" "api_key" Examples.start
     = (Examples.start, Err (key_not_found "api_key" "arn:empty")).
Proof. repeat split; try reflexivity; discriminate. Qed.

End SecretsFacts.

(* ================================================================== *)
(** * More on key derivation                                            *)
(* ================================================================== *)

Module KeyDerivationMore.
Import StringFacts KeyDerivation KeyDerivationFacts.

Lemma split_segments_triple key h a b c :
  split slash key = (h ++ [a; b; c])%list ->
  occurs slash a = false /\ occurs slash b = false /\ occurs slash c = false.
Proof.
  intros Hs. pose proof (split_segments_without_sep slash key) as Hall.
  rewrite Hs in Hall. apply Forall_app in Hall as [_ Hall].
  inversion Hall as [|? ? Ha Hall']; subst.
  inversion Hall' as [|? ? Hb Hall'']; subst.
  inversion Hall'' as [|? ? Hc _]; subst. now repeat split.
Qed.

Lemma basename_without_sep base : occurs slash base = false -> basename base = base.
Proof.
  intros H. rewrite basename_last_segment, (split_without_sep _ _ H). reflexivity.
Qed.

Lemma basename_app dir base :
  occurs slash base = false -> basename (dir ++ "/" ++ base) = base.
Proof.
  intros H. rewrite basename_last_segment.
  change ("/" ++ base) with (String slash base).
  rewrite split_app, (split_without_sep _ _ H). apply last_last.
Qed.

Lemma new_s3_key_defined processed_prefix original_key :
  exists derived, new_s3_key processed_prefix original_key = Ok derived.
Proof.
  unfold new_s3_key.
  destruct (Nat.leb_spec 4 (List.length (split slash original_key))) as [H|H];
    [|eexists; reflexivity].
  destruct (last_three (split slash original_key) ltac:(lia)) as (h & a & b & c & Hs & _).
  rewrite Hs in *.
  rewrite (index_from_end_app h [a; b; c] 3 a), (index_from_end_app h [a; b; c] 2 b),
    (index_from_end_app h [a; b; c] 1 c); simpl; try reflexivity; try lia.
  eexists; reflexivity.
Qed.

(** X2. The derivation never raises: the guard on the number of segments
    keeps the three negative indices in range, and the derived key always
    starts with the processed prefix and a ['/']. *)
Theorem new_s3_key_never_raises (processed_prefix original_key : string) :
  exists rest,
    new_s3_key processed_prefix original_key = Ok (processed_prefix ++ "/" ++ rest).
Proof.
  destruct (Nat.leb_spec 4 (List.length (split slash original_key))) as [H|H].
  - destruct (last_three (split slash original_key) ltac:(lia)) as (h & a & b & c & Hs & _).
    assert (Hh : h <> []) by (intros ->; rewrite Hs in H; simpl in H; lia).
    exists (a ++ "/" ++ b ++ "/" ++ c). now apply (new_s3_key_triple _ _ h).
  - exists ("unclassified/" ++ basename original_key). unfold new_s3_key.
    replace (4 <=? List.length (split slash original_key))%nat with false
      by (symmetry; apply Nat.leb_gt; lia).
    reflexivity.
Qed.

(** X3. Deriving again from a derived key changes nothing, for a key of at
    least four segments under any prefix, and for every key when the prefix
    holds no ['/']. *)
Theorem new_s3_key_idempotent (processed_prefix original_key : string) :
  (4 <= List.length (split slash original_key))%nat
    \/ occurs slash processed_prefix = false ->
  exists derived,
    new_s3_key processed_prefix original_key = Ok derived
    /\ new_s3_key processed_prefix derived = Ok derived.
Proof.
  intros Hcase.
  destruct (Nat.leb_spec 4 (List.length (split slash original_key))) as [H|H].
  - destruct (last_three (split slash original_key) ltac:(lia)) as (h & a & b & c & Hs & _).
    assert (Hh : h <> []) by (intros ->; rewrite Hs in H; simpl in H; lia).
    destruct (split_segments_triple _ _ _ _ _ Hs) as (Ha & Hb & Hc).
    exists (processed_prefix ++ "/" ++ a ++ "/" ++ b ++ "/" ++ c). split.
    + now apply (new_s3_key_triple _ _ h).
    + apply (new_s3_key_triple _ _ (split slash processed_prefix)).
      * now apply split_raw_s3_key.
      * apply split_not_nil.
  - destruct Hcase as [Hge|Hp]; [lia|].
    assert (Hbase : occurs slash (basename original_key) = false).
    { rewrite basename_last_segment.
      apply (Forall_last_elem (fun seg => occurs slash seg = false));
        [apply split_segments_without_sep | apply split_not_nil]. }
    exists (processed_prefix ++ "/unclassified/" ++ basename original_key).
    assert (Hfall : forall k, (List.length (split slash k) < 4)%nat ->
              new_s3_key processed_prefix k
              = Ok (processed_prefix ++ "/unclassified/" ++ basename k)).
    { intros k Hk. unfold new_s3_key.
      replace (4 <=? List.length (split slash k))%nat with false
        by (symmetry; apply Nat.leb_gt; lia).
      reflexivity. }
    assert (Hsegs : split slash (processed_prefix ++ "/unclassified/"
                                  ++ basename original_key)
                    = [processed_prefix; "unclassified"; basename original_key]).
    { change ("/unclassified/" ++ basename original_key)
        with (String slash ("unclassified" ++ String slash (basename original_key))).
      rewrite !split_app, (split_without_sep _ _ Hp), (split_without_sep _ _ Hbase).
      reflexivity. }
    split; [now apply Hfall|].
    rewrite Hfall by (rewrite Hsegs; simpl; lia).
    rewrite (basename_last_segment (processed_prefix ++ _)), Hsegs. reflexivity.
Qed.

Lemma new_s3_key_idempotent_example :
  exists derived,
    new_s3_key "processed_data" "financial_data/market_data/2024-01-01/a.json" = Ok derived
    /\ new_s3_key "processed_data" derived = Ok derived.
Proof.
  apply new_s3_key_idempotent. left. vm_compute. lia.
Defined.



(** X5. The fallback keeps the base name only: a key of at most three
    segments loses its directories, so keys that differ in them collide,
    and a key that ends in ['/'] derives to the bare [unclassified/]
    directory. *)
Theorem new_s3_key_fallback_keeps_base_name (processed_prefix dir base : string) :
  (List.length (split slash dir) <= 2)%nat ->
  occurs slash base = false ->
  new_s3_key processed_prefix (dir ++ "/" ++ base)
  = Ok (processed_prefix ++ "/unclassified/" ++ base).
Proof.
  intros Hd Hb. unfold new_s3_key.
  replace (4 <=? List.length (split slash (dir ++ "/" ++ base)))%nat with false.
  - now rewrite basename_app.
  - symmetry. apply Nat.leb_gt.
    change ("/" ++ base) with (String slash base).
    rewrite split_app, (split_without_sep _ _ Hb), length_app. simpl. lia.
Qed.

Lemma new_s3_key_fallback_keeps_base_name_example :
  new_s3_key "processed_data" "incoming/2024/" = Ok "processed_data/unclassified/".
Proof.
  refine (new_s3_key_fallback_keeps_base_name "processed_data" "incoming/2024" "" _ _);
    [vm_compute; lia | reflexivity].
Defined.

End KeyDerivationMore.

(* ================================================================== *)
(** * More on the Normalizer                                            *)
(* ================================================================== *)

Module NormalizerMore.
Import Normalizer Spec MoreSpec NormalizerFacts.

Section WithRuntime.
Context {rt : Runtime}.

Lemma market_record_keys record d :
  market_record record = Ok d -> map fst d = market_keys.
Proof.
  unfold market_record.
  repeat match goal with
         | |- rbind ?r _ = Ok _ -> _ => destruct r; cbn [rbind]; [|discriminate]
         end.
  intros H. injection H as <-. reflexivity.
Qed.

Lemma market_loop_spec records : forall processed_data out,
  market_loop records processed_data = Ok out ->
  exists added,
    out = (processed_data ++ added)%list
    /\ Forall2 (fun record o => exists d, market_record record = Ok d /\ o = JObj d)
         records added.
Proof.
  induction records as [|r records IH]; intros acc out; cbn [market_loop].
  - intros H. injection H as <-. exists []. rewrite app_nil_r. now split.
  - destruct (market_record r) as [d|e] eqn:E; cbn [rbind]; [|discriminate].
    intros H. destruct (IH _ _ H) as (added & -> & Hall).
    exists (JObj d :: added). rewrite <- app_assoc. split; [reflexivity|].
    constructor; [now exists d | assumption].
Qed.

Lemma market_loop_raises records : forall processed_data r e,
  In r records -> market_record r = Err e ->
  exists e', market_loop records processed_data = Err e'.
Proof.
  induction records as [|x records IH]; intros acc r e Hin Hr; [destruct Hin|].
  cbn [market_loop]. destruct (market_record x) as [d|e1] eqn:E; cbn [rbind].
  - destruct Hin as [->|Hin]; [congruence|]. eapply IH; eassumption.
  - now exists e1.
Qed.

(** X6. The [market_data] branch filters nothing: when it returns, it returns
    one record per input record, in input order, each with the six keys
    [index, date, open, close, volume, daily_change_pct]. *)
Theorem market_data_keeps_every_record (records : list json) (out : json) :
  transform_financial_data (JArr records) "market_data" = Ok out ->
  exists outs,
    out = JArr outs
    /\ List.length outs = List.length records
    /\ Forall2 (fun record o => exists d, market_record record = Ok d /\ o = JObj d)
         records outs
    /\ Forall (fun o => exists d, o = JObj d /\ map fst d = market_keys) outs.
Proof.
  unfold transform_financial_data. cbn [String.eqb Ascii.eqb Bool.eqb iter rbind].
  destruct (market_loop records []) as [outs|e] eqn:E; cbn [rbind]; [|discriminate].
  intros H. injection H as <-.
  destruct (market_loop_spec _ _ _ E) as (added & -> & Hall).
  exists added. cbn [app]. repeat split.
  - symmetry. eapply Forall2_length; eassumption.
  - assumption.
  - clear E. induction Hall as [|r o records outs (d & Hd & ->) Hall IH]; constructor.
    + exists d. split; [reflexivity | eapply market_record_keys; eassumption].
    + assumption.
Qed.

(** X7. The [market_data] branch is all or nothing: one record that cannot be
    normalised (an [open] that is [null], a text that is no number, an
    entry that is no dict) makes the whole call raise, and no record of the
    batch is returned. *)
Theorem market_data_is_all_or_nothing (records : list json) (record : json) (e : exn) :
  In record records ->
  market_record record = Err e ->
  exists e', transform_financial_data (JArr records) "market_data" = Err e'.
Proof.
  intros Hin Hr. unfold transform_financial_data.
  cbn [String.eqb Ascii.eqb Bool.eqb iter rbind].
  destruct (market_loop_raises records [] record e Hin Hr) as (e' & ->).
  now exists e'.
Qed.

Lemma retained_five_fields d : retained (five_fields d) = false.
Proof.
  unfold retained.
  replace (field (five_fields d) "netIncome") with JNull by reflexivity.
  cbn [truthy]. now rewrite andb_false_r.
Qed.

Lemma filter_retained_five_fields l : filter retained (map five_fields l) = [].
Proof.
  induction l as [|d l IH]; [reflexivity|].
  cbn [map filter]. now rewrite retained_five_fields.
Qed.

(** X8. Normalising [company_financials] records is not idempotent: the output
    carries [net_income] where the input is read at [netIncome], so
    normalising the output again drops every record. *)
Theorem company_financials_twice_is_empty (records : list dict) :
  exists out,
    transform_financial_data (JArr (map JObj records)) "company_financials" = Ok out
    /\ transform_financial_data out "company_financials" = Ok (JArr []).
Proof.
  exists (JArr (map JObj (map five_fields (filter retained records)))). split.
  - unfold transform_financial_data. cbn [String.eqb Ascii.eqb Bool.eqb iter rbind].
    rewrite company_loop_spec, map_map. reflexivity.
  - unfold transform_financial_data. cbn [String.eqb Ascii.eqb Bool.eqb iter rbind].
    rewrite company_loop_spec, filter_retained_five_fields. reflexivity.
Qed.

(** X9. For the two known data types the input must be an array of dicts: a
    non-empty JSON object raises [AttributeError] (its keys are iterated,
    and a key has no [get]), as does an array whose first entry is no dict;
    [null], a number or a boolean raises [TypeError]; an empty object
    normalises to the empty list. *)
Theorem known_data_types_want_an_array_of_dicts (data_type : string) :
  data_type = "company_financials" \/ data_type = "market_data" ->
  (forall kv d,
     transform_financial_data (JObj (kv :: d)) data_type = Err (builtin AttributeError))
  /\ (forall record rest, not_a_dict record = true ->
        transform_financial_data (JArr (record :: rest)) data_type
        = Err (builtin AttributeError))
  /\ transform_financial_data JNull data_type = Err (builtin TypeError)
  /\ (forall z, transform_financial_data (JInt z) data_type = Err (builtin TypeError))
  /\ (forall f, transform_financial_data (JFloat f) data_type = Err (builtin TypeError))
  /\ (forall b, transform_financial_data (JBool b) data_type = Err (builtin TypeError))
  /\ transform_financial_data (JObj []) data_type = Ok (JArr []).
Proof.
  intros [-> | ->]; repeat split; try reflexivity;
    intros record rest H; destruct record; try discriminate; reflexivity.
Qed.

End WithRuntime.

Lemma market_data_keeps_every_record_example :
  exists outs,
    JArr [JObj [("index", JStr "SPX"); ("date", JStr "2024-01-01"); ("open", JFloat 0);
                ("close", JFloat 50); ("volume", JInt 0); ("daily_change_pct", JInt 0)]]
    = JArr outs
    /\ List.length outs = 1%nat
    /\ Forall2 (fun record o =>
                  exists d, market_record (rt := Examples.example_runtime) record = Ok d
                            /\ o = JObj d)
         [JObj [("index", JStr "SPX"); ("date", JStr "2024-01-01");
                ("open", JInt 0); ("close", JInt 50)]] outs
    /\ Forall (fun o => exists d, o = JObj d /\ map fst d = market_keys) outs.
Proof.
  exact (market_data_keeps_every_record (rt := Examples.example_runtime)
           [JObj [("index", JStr "SPX"); ("date", JStr "2024-01-01");
                  ("open", JInt 0); ("close", JInt 50)]] _ eq_refl).
Defined.

Lemma market_data_is_all_or_nothing_example :
  exists e',
    transform_financial_data (rt := Examples.example_runtime)
      (JArr [JObj [("open", JInt 100); ("close", JInt 110)];
             JObj [("open", JNull); ("close", JInt 110)]]) "market_data"
    = Err e'.
Proof.
  apply (market_data_is_all_or_nothing (rt := Examples.example_runtime) _
           (JObj [("open", JNull); ("close", JInt 110)]) (builtin TypeError)).
  - right. left. reflexivity.
  - reflexivity.
Defined.

Lemma known_data_types_want_an_array_of_dicts_example :
  transform_financial_data (rt := Examples.example_runtime)
    (JObj [("error", JStr "rate limit exceeded")]) "market_data"
  = Err (builtin AttributeError).
Proof.
  exact (proj1 (known_data_types_want_an_array_of_dicts
                  (rt := Examples.example_runtime) "market_data"
                  (or_intror eq_refl))
           ("error", JStr "rate limit exceeded") []).
Defined.

End NormalizerMore.

(* ================================================================== *)
(** * More on the Puller                                                *)
(* ================================================================== *)

Module PullerMore.
Import Puller Spec MoreSpec EffectsFacts PullerFacts.

Section WithServices.
Context {rt : Runtime} {W : Type} {sv : Services W}.
Variable self : FinancialDataIngestor.

(** What one ingestion does: the request, the write, the log line. *)
Lemma fetch_then_upload_steps endpoint params data_type w :
  (data <-- _fetch_data_from_api self endpoint params ;;
   fun w => _upload_to_s3 self data data_type (today w) w) w
  = match requests_get (api_base_url self ++ "/" ++ endpoint)
            [("Authorization", "Bearer " ++ api_key self)] params w with
    | (w1, Err e) => (w1, Err e)
    | (w1, Ok data) =>
        match s3_put_object (s3_bucket_name self) (key_at self data_type w1)
                (json_dumps data) w1 with
        | (w2, Ok _) =>
            match py_len data with
            | Ok _ => (w2, Ok (key_at self data_type w1))
            | Err e => (w2, Err e)
            end
        | (w2, Err e) => (w2, Err e)
        end
    end.
Proof.
  unfold bind at 1. rewrite fetch_is_the_request.
  destruct (requests_get _ _ _ w) as [w1 [data|e]]; [|reflexivity].
  rewrite upload_is_the_put. cbv zeta. unfold bind, lift, ret, key_at.
  destruct (s3_put_object _ _ _ w1) as [w2 [[]|e]]; [|reflexivity].
  destruct (py_len data); reflexivity.
Qed.

(** X10. An ingestion makes one authorised request and, when it is answered,
    one write: the data as fetched, serialised and not normalised, under
    the key of the data type at the time of the write.  When the request
    fails nothing is written and its error is raised; when the write fails
    its error is raised.  After the write the log line takes the length of
    the data: the key is returned when the data has one (an array, an
    object, a text), and for data without a length ([null], a number, a
    boolean) [TypeError] is raised although the object has been written. *)
Theorem ingestion_writes_what_it_fetched (symbol period market_index from_date to_date : string)
    (w : W) :
  ingest_company_financials self symbol period w
  = match financials_request self symbol period w with
    | (w1, Err e) => (w1, Err e)
    | (w1, Ok data) =>
        match s3_put_object (s3_bucket_name self) (key_at self "company_financials" w1)
                (json_dumps data) w1 with
        | (w2, Ok _) =>
            match data with
            | JArr _ | JObj _ | JStr _ => (w2, Ok (key_at self "company_financials" w1))
            | _ => (w2, Err (builtin TypeError))
            end
        | (w2, Err e) => (w2, Err e)
        end
    end
  /\ ingest_market_data self market_index from_date to_date w
     = match market_request self market_index from_date to_date w with
       | (w1, Err e) => (w1, Err e)
       | (w1, Ok data) =>
           match s3_put_object (s3_bucket_name self) (key_at self "market_data" w1)
                   (json_dumps data) w1 with
           | (w2, Ok _) =>
               match data with
               | JArr _ | JObj _ | JStr _ => (w2, Ok (key_at self "market_data" w1))
               | _ => (w2, Err (builtin TypeError))
               end
           | (w2, Err e) => (w2, Err e)
           end
       end.
Proof.
  split; [unfold ingest_company_financials, financials_request
         | unfold ingest_market_data, market_request];
    rewrite fetch_then_upload_steps;
    destruct (requests_get _ _ _ w) as [w1 [data|e]]; try reflexivity;
    destruct (s3_put_object _ _ _ w1) as [w2 [[]|e]]; try reflexivity;
    destruct data; reflexivity.
Qed.

(** X11. The key of an ingestion does not name the symbol: the key an
    ingestion returns is the key of [company_financials] at the clock
    reading of its write, whatever the symbol and the period.  So two
    ingestions whose writes happen at the same date and second return the
    same key, and the second write replaces the first. *)
Theorem company_financials_keys_ignore_the_symbol
    (symbol symbol' period period' : string) (w w' v v' : W) (key key' : string) :
  ingest_company_financials self symbol period w = (w', Ok key) ->
  ingest_company_financials self symbol' period' v = (v', Ok key') ->
  exists data data' w1 v1,
    financials_request self symbol period w = (w1, Ok data)
    /\ financials_request self symbol' period' v = (v1, Ok data')
    /\ key = key_at self "company_financials" w1
    /\ key' = key_at self "company_financials" v1
    /\ (today w1 = today v1 -> hhmmss w1 = hhmmss v1 -> key = key').
Proof.
  intros H1 H2.
  assert (Hkey : forall s p u u' k,
            ingest_company_financials self s p u = (u', Ok k) ->
            exists d u1, financials_request self s p u = (u1, Ok d)
                         /\ k = key_at self "company_financials" u1).
  { intros s p u u' k H. unfold ingest_company_financials in H.
    rewrite fetch_then_upload_steps in H. unfold financials_request.
    destruct (requests_get _ _ _ u) as [u1 [d|e]]; [|discriminate].
    destruct (s3_put_object _ _ _ u1) as [u2 [[]|e]]; [|discriminate].
    destruct (py_len d); [|discriminate].
    injection H as _ <-. now exists d, u1. }
  destruct (Hkey _ _ _ _ _ H1) as (data & w1 & Hr1 & ->).
  destruct (Hkey _ _ _ _ _ H2) as (data' & v1 & Hr2 & ->).
  exists data, data', w1, v1. repeat split; try assumption.
  intros Ht Hh. unfold key_at. now rewrite Ht, Hh.
Qed.

(** [try_except] with the one clause [except Exception] lets through what
    is no instance of [Exception]. *)
Lemma ingest_loop_interrupted {A} (ingest : A -> M W string) x rest acc w w1 e :
  ingest x w = (w1, Err e) -> is_Exception e = false ->
  ingest_loop ingest (x :: rest) acc w = (w1, Err e).
Proof.
  intros Hx He. cbn [ingest_loop]. unfold bind at 1, try_except, bind at 1.
  rewrite Hx. cbn [find fst snd]. now rewrite He.
Qed.

(** X12. The daily run catches instances of [Exception] only: when the request
    for the first symbol raises something else (an interrupt), the run
    raises it at once, and no later symbol or index is ingested. *)
Theorem run_daily_ingestion_lets_interrupts_through
    (symbol : string) (symbols market_indices : list string) (w w1 : W) (e : exn) :
  financials_request self symbol "quarterly" w = (w1, Err e) ->
  is_Exception e = false ->
  run_daily_ingestion self (symbol :: symbols) market_indices w = (w1, Err e).
Proof.
  intros Hreq He. unfold run_daily_ingestion. cbv zeta. unfold bind at 1.
  rewrite (ingest_loop_interrupted _ symbol symbols [] w w1 e); [reflexivity | | exact He].
  unfold ingest_company_financials. rewrite fetch_then_upload_steps.
  unfold financials_request in Hreq. now rewrite Hreq.
Qed.

Lemma ingest_loop_length {A} (ingest : A -> M W string) items : forall acc w w' keys,
  ingest_loop ingest items acc w = (w', Ok keys) ->
  exists added, keys = (acc ++ added)%list /\ (List.length added <= List.length items)%nat.
Proof.
  induction items as [|x items IH]; intros acc w w' keys; cbn [ingest_loop].
  - unfold ret. intros H. injection H as _ <-. exists []. now rewrite app_nil_r.
  - unfold bind at 1, try_except, bind at 1.
    destruct (ingest x w) as [w1 [key|e]].
    + unfold ret at 1. intros H. destruct (IH _ _ _ _ H) as (added & -> & Hlen).
      exists (key :: added). rewrite <- app_assoc. split; [reflexivity | simpl; lia].
    + cbn [find fst snd]. destruct (is_Exception e).
      * unfold ret at 1. intros H. destruct (IH _ _ _ _ H) as (added & -> & Hlen).
        exists added. split; [reflexivity | simpl; lia].
      * unfold raise. discriminate.
Qed.

(** X13. The daily run returns at most one key per symbol and index, and with
    nothing to ingest it returns the empty list and leaves the world as it
    is. *)
Theorem run_daily_ingestion_returns_at_most_one_key_per_item
    (symbols market_indices : list string) (w w' : W) (keys : list string) :
  run_daily_ingestion self symbols market_indices w = (w', Ok keys) ->
  (List.length keys <= List.length symbols + List.length market_indices)%nat
  /\ run_daily_ingestion self [] [] w = (w, Ok []).
Proof.
  intros H. split; [|reflexivity].
  unfold run_daily_ingestion in H. cbv zeta in H. unfold bind at 1 in H.
  destruct (ingest_loop _ symbols [] w) as [w1 [keys1|e]] eqn:E1; [|discriminate].
  destruct (ingest_loop_length _ _ _ _ _ _ E1) as (a1 & -> & H1).
  destruct (ingest_loop_length _ _ _ _ _ _ H) as (a2 & -> & H2).
  rewrite !length_app. simpl. lia.
Qed.

End WithServices.

Lemma company_financials_keys_ignore_the_symbol_example :
  exists data data' w1 v1,
    financials_request (sv := MoreExamples.frozen_clock_services)
      Examples.example_ingestor "AAPL" "quarterly" Examples.start = (w1, Ok data)
    /\ financials_request (sv := MoreExamples.frozen_clock_services)
         Examples.example_ingestor "GOOGL" "quarterly"
         (1%nat, ["financial_data/company_financials/2024-01-02/company_financials_2024-01-02_103000.json"])
       = (v1, Ok data')
    /\ "financial_data/company_financials/2024-01-02/company_financials_2024-01-02_103000.json"
       = key_at (sv := MoreExamples.frozen_clock_services)
           Examples.example_ingestor "company_financials" w1
    /\ "financial_data/company_financials/2024-01-02/company_financials_2024-01-02_103000.json"
       = key_at (sv := MoreExamples.frozen_clock_services)
           Examples.example_ingestor "company_financials" v1
    /\ (today (Services := MoreExamples.frozen_clock_services) w1
         = today (Services := MoreExamples.frozen_clock_services) v1 ->
        hhmmss (Services := MoreExamples.frozen_clock_services) w1
         = hhmmss (Services := MoreExamples.frozen_clock_services) v1 ->
        "financial_data/company_financials/2024-01-02/company_financials_2024-01-02_103000.json"
        = "financial_data/company_financials/2024-01-02/company_financials_2024-01-02_103000.json").
Proof.
  exact (company_financials_keys_ignore_the_symbol
           (rt := Examples.example_runtime) (sv := MoreExamples.frozen_clock_services)
           Examples.example_ingestor "AAPL" "GOOGL" "quarterly" "quarterly"
           Examples.start
           (1%nat, ["financial_data/company_financials/2024-01-02/company_financials_2024-01-02_103000.json"])
           (1%nat, ["financial_data/company_financials/2024-01-02/company_financials_2024-01-02_103000.json"])
           (2%nat, ["financial_data/company_financials/2024-01-02/company_financials_2024-01-02_103000.json";
                    "financial_data/company_financials/2024-01-02/company_financials_2024-01-02_103000.json"])
           _ _ eq_refl eq_refl).
Defined.

Lemma run_daily_ingestion_lets_interrupts_through_example :
  run_daily_ingestion (rt := Examples.example_runtime)
    (sv := MoreExamples.interrupted_services)
    Examples.example_ingestor ["AAPL"; "GOOGL"] ["SPX"] Examples.start
  = (Examples.start, Err (builtin KeyboardInterrupt)).
Proof.
  exact (run_daily_ingestion_lets_interrupts_through
           (rt := Examples.example_runtime) (sv := MoreExamples.interrupted_services)
           Examples.example_ingestor "AAPL" ["GOOGL"] ["SPX"] Examples.start Examples.start
           (builtin KeyboardInterrupt) eq_refl eq_refl).
Defined.

Lemma run_daily_ingestion_returns_at_most_one_key_per_item_example :
  (2 <= 3 + 0)%nat
  /\ run_daily_ingestion (rt := Examples.example_runtime)
       (sv := Examples.example_services) Examples.example_ingestor [] [] Examples.start
     = (Examples.start, Ok []).
Proof.
  exact (run_daily_ingestion_returns_at_most_one_key_per_item
           (rt := Examples.example_runtime) (sv := Examples.example_services)
           Examples.example_ingestor ["AAPL"; "MSFT"; "GOOGL"] [] Examples.start _ _
           eq_refl).
Defined.

End PullerMore.

(* ================================================================== *)
(** * More on the Reactor                                               *)
(* ================================================================== *)

Module ReactorMore.
Import Reactor Spec MoreSpec StringFacts EffectsFacts KeyDerivationFacts ReactorFacts.

Lemma data_type_of_financial_data_key data_type date_str filename :
  occurs slash data_type = false ->
  data_type_of (split slash
                  (KeyDerivation.raw_s3_key "financial_data" data_type date_str filename))
  = data_type.
Proof.
  intros Hd. unfold KeyDerivation.raw_s3_key.
  change ("/" ++ data_type ++ "/" ++ date_str ++ "/" ++ filename)
    with (String slash (data_type ++ String slash (date_str ++ "/" ++ filename))).
  rewrite !split_app, (split_without_sep _ _ Hd).
  unfold data_type_of. cbn [split String.eqb Ascii.eqb Bool.eqb app List.length nth].
  pose proof (split_length_pos slash (date_str ++ "/" ++ filename)).
  replace (1 <? S (S (List.length (split slash (date_str ++ "/" ++ filename)))))%nat
    with true by (symmetry; apply Nat.ltb_lt; lia).
  reflexivity.
Qed.

(** X14. The data type read off a key the Puller wrote: with the raw prefix
    [financial_data] it is the key's data type; with a raw prefix whose
    first segment is anything else it is [unknown]. *)
Theorem data_type_of_a_puller_key (s3_prefix data_type date_str filename : string) :
  occurs slash data_type = false ->
  data_type_of (split slash
                  (KeyDerivation.raw_s3_key "financial_data" data_type date_str filename))
  = data_type
  /\ (nth 0 (split slash s3_prefix) "" <> "financial_data" ->
      data_type_of (split slash
                      (KeyDerivation.raw_s3_key s3_prefix data_type date_str filename))
      = "unknown").
Proof.
  intros Hd. split; [now apply data_type_of_financial_data_key|].
  unfold KeyDerivation.raw_s3_key.
  - intros Hp.
    change ("/" ++ data_type ++ "/" ++ date_str ++ "/" ++ filename)
      with (String slash (data_type ++ "/" ++ date_str ++ "/" ++ filename)).
    rewrite split_app. unfold data_type_of.
    pose proof (split_not_nil slash s3_prefix) as Hn.
    destruct (split slash s3_prefix) as [|seg segs]; [congruence|].
    cbn [app nth] in *. apply String.eqb_neq in Hp. rewrite Hp.
    now rewrite andb_false_r.
Qed.

Lemma data_type_of_a_puller_key_example :
  data_type_of (split slash
                  (KeyDerivation.raw_s3_key "financial_data" "market_data" "2024-01-01"
                     "market_data_2024-01-01_103000.json"))
  = "market_data"
  /\ (nth 0 (split slash "raw/financial_data") "" <> "financial_data" ->
      data_type_of (split slash
                      (KeyDerivation.raw_s3_key "raw/financial_data" "market_data"
                         "2024-01-01" "market_data_2024-01-01_103000.json"))
      = "unknown").
Proof.
  exact (data_type_of_a_puller_key "raw/financial_data" "market_data" "2024-01-01"
           "market_data_2024-01-01_103000.json" eq_refl).
Defined.

Section WithServices.
Context {rt : Runtime} {W : Type} {sv : Services W}.
Variable cfg : config.

(** X15. Loading decodes the stored bytes as UTF-8 and parses the text as JSON;
    an error of the storage, bytes that are no UTF-8 and text that is no
    JSON each raise, with the world as the storage left it. *)
Theorem load_raw_data_from_s3_outcome (bucket key : json) (w : W) :
  load_raw_data_from_s3 bucket key w
  = match s3_get_object bucket key w with
    | (w1, Err e) => (w1, Err e)
    | (w1, Ok body) =>
        match decode_utf8 body with
        | None => (w1, Err (builtin UnicodeDecodeError))
        | Some text =>
            match json_loads text with
            | None => (w1, Err (builtin JSONDecodeError))
            | Some data => (w1, Ok data)
            end
        end
    end.
Proof.
  unfold load_raw_data_from_s3.
  rewrite try_except_reraise by (intros cl [<-|[<-|[]]] e; reflexivity).
  unfold bind, lift. destruct (s3_get_object bucket key w) as [w1 [body|e]]; [|reflexivity].
  destruct (decode_utf8 body) as [text|]; [|reflexivity].
  destruct (json_loads text); reflexivity.
Qed.

(** X16. Uploading writes once, to the processed bucket, under the key derived
    from the original key, the serialised data; it returns that key, or
    raises what the write raised.  For a key that is no text nothing is
    written. *)
Theorem upload_processed_data_to_s3_outcome (data : json) (w : W) :
  (forall original_s3_key,
     exists new_s3_key,
       KeyDerivation.new_s3_key (PROCESSED_S3_PREFIX cfg) original_s3_key = Ok new_s3_key
       /\ upload_processed_data_to_s3 cfg data (JStr original_s3_key) w
          = match s3_put_object (PROCESSED_S3_BUCKET cfg) new_s3_key (json_dumps data) w with
            | (w1, Ok _) => (w1, Ok new_s3_key)
            | (w1, Err e) => (w1, Err e)
            end)
  /\ (forall original_s3_key,
        (forall k, original_s3_key <> JStr k) ->
        upload_processed_data_to_s3 cfg data original_s3_key w
        = (w, Err (builtin AttributeError))).
Proof.
  split.
  - intros k.
    destruct (KeyDerivationMore.new_s3_key_defined (PROCESSED_S3_PREFIX cfg) k)
      as (derived & Hk).
    eexists. split; [exact Hk|].
    unfold upload_processed_data_to_s3.
    rewrite try_except_reraise by (intros cl [<-|[]] e; reflexivity).
    unfold bind at 1, lift. rewrite Hk. unfold bind, ret.
    destruct (s3_put_object _ _ _ w) as [w1 [[]|e]]; reflexivity.
  - intros key Hkey. unfold upload_processed_data_to_s3.
    rewrite try_except_reraise by (intros cl [<-|[]] e; reflexivity).
    unfold bind, lift. destruct key; try reflexivity. now destruct (Hkey s).
Qed.

(** X17. The two pipelines fit together: for an object the Puller wrote under
    the raw prefix [financial_data], the Reactor normalises the loaded data
    as the key's data type and writes the result once, to the processed
    bucket, under the processed prefix followed by the same
    data type, date and file name. *)
Theorem puller_object_lands_at_the_symmetric_key
    (bucket : json) (data_type date_str filename : string)
    (raw_data processed_data : json) (w w1 : W) :
  occurs slash data_type = false ->
  occurs slash date_str = false ->
  occurs slash filename = false ->
  load_raw_data_from_s3 bucket
    (JStr (KeyDerivation.raw_s3_key "financial_data" data_type date_str filename)) w
    = (w1, Ok raw_data) ->
  Normalizer.transform_financial_data raw_data data_type = Ok processed_data ->
  process_object cfg bucket
    (JStr (KeyDerivation.raw_s3_key "financial_data" data_type date_str filename)) w
  = match s3_put_object (PROCESSED_S3_BUCKET cfg)
            (KeyDerivation.raw_s3_key (PROCESSED_S3_PREFIX cfg) data_type date_str filename)
            (json_dumps processed_data) w1 with
    | (w2, Ok _) => (w2, Ok tt)
    | (w2, Err e) => (w2, Err e)
    end.
Proof.
  intros Hd Ht Hf Hload Htr. rewrite process_object_unguarded.
  unfold bind at 1. rewrite Hload. unfold bind at 1, lift at 1. cbn [split_slash].
  unfold bind at 1, lift at 1.
  rewrite (data_type_of_financial_data_key data_type date_str filename Hd), Htr.
  unfold upload_processed_data_to_s3.
  unfold bind at 1.
  rewrite try_except_reraise by (intros cl [<-|[]] e; reflexivity).
  unfold bind at 1, lift.
  assert (Hkey : KeyDerivation.new_s3_key (PROCESSED_S3_PREFIX cfg)
                   (KeyDerivation.raw_s3_key "financial_data" data_type date_str filename)
                 = Ok (KeyDerivation.raw_s3_key (PROCESSED_S3_PREFIX cfg)
                         data_type date_str filename)).
  { unfold KeyDerivation.raw_s3_key.
    apply (new_s3_key_triple _ _ (split slash "financial_data")).
    - now apply split_raw_s3_key.
    - discriminate. }
  rewrite Hkey. unfold bind, ret.
  destruct (s3_put_object _ _ _ w1) as [w2 [[]|e]]; reflexivity.
Qed.

(** X18. An event without [Records] raises [KeyError] and an event whose
    [Records] are empty returns the acknowledgment; neither touches the
    world. *)
Theorem lambda_handler_without_notifications (w : W) :
  (forall d, dict_lookup d "Records" = None ->
     lambda_handler cfg (JObj d) w = (w, Err (Raised KeyError "Records")))
  /\ (forall event records_v,
        subscript event "Records" = Ok records_v -> iter records_v = Ok [] ->
        lambda_handler cfg event w = (w, Ok acknowledgment)).
Proof.
  split.
  - intros d Hd. unfold lambda_handler, bind, lift. cbn [subscript]. now rewrite Hd.
  - intros event rv Hs Hi. now rewrite (lambda_handler_unfold cfg event rv [] w Hs Hi).
Qed.

(** X19. A notification whose ['s3'] entry does not name a bucket or a key
    raises the error of the failed lookup before anything is loaded: the
    world is untouched, and the handler raises that error for the batch. *)
Theorem notification_without_bucket_or_key (d : dict) (s3 : json) (e : exn) (w : W) :
  dict_lookup d "s3" = Some s3 ->
  (b <- subscript s3 "bucket" ;; subscript b "name") = Err e
  \/ (exists bucket,
        (b <- subscript s3 "bucket" ;; subscript b "name") = Ok bucket
        /\ (o <- subscript s3 "object" ;; subscript o "key") = Err e) ->
  handle_record cfg (JObj d) w = (w, Err e)
  /\ forall rest,
       lambda_handler cfg (JObj [("Records", JArr (JObj d :: rest))]) w = (w, Err e).
Proof.
  intros Hd Hcase.
  assert (Hrec : handle_record cfg (JObj d) w = (w, Err e)).
  { unfold handle_record, bind, lift. cbn [not_in subscript]. rewrite Hd.
    destruct Hcase as [Hb | (bucket & Hb & Ho)].
    - destruct (subscript s3 "bucket") as [b|eb]; cbn [rbind] in Hb.
      + now rewrite Hb.
      + congruence.
    - destruct (subscript s3 "bucket") as [b|eb]; cbn [rbind] in Hb; [|discriminate].
      rewrite Hb.
      destruct (subscript s3 "object") as [o|eo]; cbn [rbind] in Ho.
      + now rewrite Ho.
      + congruence. }
  split; [exact Hrec|]. intros rest.
  rewrite (lambda_handler_unfold cfg (JObj [("Records", JArr (JObj d :: rest))])
             (JArr (JObj d :: rest)) (JObj d :: rest) w eq_refl eq_refl).
  cbn [for_each]. unfold bind. now rewrite Hrec.
Qed.

Lemma for_each_app (step : json -> M W unit) l1 l2 : forall w w1,
  processed_all step l1 w w1 ->
  for_each step (l1 ++ l2)%list w = for_each step l2 w1.
Proof.
  induction l1 as [|r l1 IH]; intros w w1 H; inversion H; subst; [reflexivity|].
  cbn [app for_each]. unfold bind.
  match goal with Hs : step r w = _ |- _ => rewrite Hs end.
  now apply IH.
Qed.

(** X20. A batch is handled in order and from left to right: once the first
    notifications have been handled without error, the handler goes on as
    it would on the rest of the batch in the world they left. *)
Theorem lambda_handler_continues_with_the_rest (first rest : list json) (w w1 : W) :
  processed_all (handle_record cfg) first w w1 ->
  lambda_handler cfg (JObj [("Records", JArr (first ++ rest)%list)]) w
  = lambda_handler cfg (JObj [("Records", JArr rest)]) w1.
Proof.
  intros H.
  rewrite (lambda_handler_unfold cfg (JObj [("Records", JArr (first ++ rest)%list)])
             (JArr (first ++ rest)%list) (first ++ rest)%list w eq_refl eq_refl).
  rewrite (lambda_handler_unfold cfg (JObj [("Records", JArr rest)])
             (JArr rest) rest w1 eq_refl eq_refl).
  now rewrite (for_each_app _ first rest w w1 H).
Qed.

End WithServices.

Lemma puller_object_lands_at_the_symmetric_key_example :
  process_object (rt := Examples.example_runtime) (sv := Examples.example_services)
    Examples.example_config (JStr "cb-global-raw-financial-data")
    (JStr (KeyDerivation.raw_s3_key "financial_data" "market_data" "2024-01-01"
             "market_data_2024-01-01_103000.json"))
    Examples.start
  = ((O, ["processed_data/market_data/2024-01-01/market_data_2024-01-01_103000.json"]),
     Ok tt).
Proof.
  exact (puller_object_lands_at_the_symmetric_key
           (rt := Examples.example_runtime) (sv := Examples.example_services)
           Examples.example_config (JStr "cb-global-raw-financial-data")
           "market_data" "2024-01-01" "market_data_2024-01-01_103000.json"
           (JArr []) (JArr []) Examples.start Examples.start
           eq_refl eq_refl eq_refl eq_refl eq_refl).
Defined.

Lemma notification_without_bucket_or_key_example :
  handle_record (rt := Examples.example_runtime) (sv := Examples.example_services)
    Examples.example_config
    (JObj [("s3", JObj [("bucket", JObj [("name", JStr "b")])])]) Examples.start
  = (Examples.start, Err (Raised KeyError "object"))
  /\ forall rest,
       lambda_handler (rt := Examples.example_runtime) (sv := Examples.example_services)
         Examples.example_config
         (JObj [("Records",
                 JArr (JObj [("s3", JObj [("bucket", JObj [("name", JStr "b")])])] :: rest))])
         Examples.start
       = (Examples.start, Err (Raised KeyError "object")).
Proof.
  refine (notification_without_bucket_or_key
            (rt := Examples.example_runtime) (sv := Examples.example_services)
            Examples.example_config
            [("s3", JObj [("bucket", JObj [("name", JStr "b")])])]
            (JObj [("bucket", JObj [("name", JStr "b")])])
            (Raised KeyError "object") Examples.start eq_refl _).
  right. exists (JStr "b"). split; reflexivity.
Defined.

Lemma lambda_handler_continues_with_the_rest_example :
  lambda_handler (rt := Examples.example_runtime) (sv := Examples.example_services)
    Examples.example_config
    (JObj [("Records",
            JArr ([Examples.notification "financial_data/market_data/2024-01-01/a.json"]
                  ++ [Examples.notification "financial_data/market_data/2024-01-01/b.json"])%list)])
    Examples.start
  = lambda_handler (rt := Examples.example_runtime) (sv := Examples.example_services)
      Examples.example_config
      (JObj [("Records",
              JArr [Examples.notification "financial_data/market_data/2024-01-01/b.json"])])
      (O, ["processed_data/market_data/2024-01-01/a.json"]).
Proof.
  apply (lambda_handler_continues_with_the_rest
           (rt := Examples.example_runtime) (sv := Examples.example_services)).
  eapply processed_cons; [reflexivity | apply processed_nil].
Defined.

End ReactorMore.

(* ================================================================== *)
(** * More on the Credential Provider                                   *)
(* ================================================================== *)

Module SecretsMore.
Import Secrets Spec MoreSpec EffectsFacts.

Section WithServices.
Context {rt : Runtime} {W : Type} {sv : Services W}.

(** X21. [get_secret] asks the store in the region of [AWS_REGION], and in
    [us-east-1] when that is not set.  A text secret is returned as it is,
    a binary secret decoded as UTF-8; what the store raises is raised, by
    [get_secret] and by [get_api_key_from_secret], before anything is
    parsed. *)
Theorem get_secret_outcome (secret_arn : string) (w : W) :
  match get_secret_value (region_of w) secret_arn w with
  | (w1, Ok (SecretString s)) => get_secret secret_arn w = (w1, Ok s)
  | (w1, Ok (SecretBinary b)) =>
      get_secret secret_arn w
      = (w1, match decode_utf8 b with
             | Some text => Ok text
             | None => Err (builtin UnicodeDecodeError)
             end)
  | (w1, Err e) =>
      get_secret secret_arn w = (w1, Err e)
      /\ forall key_name, get_api_key_from_secret secret_arn key_name w = (w1, Err e)
  end.
Proof.
  assert (Hgen : get_secret secret_arn w
                 = match get_secret_value (region_of w) secret_arn w with
                   | (w1, Ok (SecretString s)) => (w1, Ok s)
                   | (w1, Ok (SecretBinary b)) =>
                       (w1, match decode_utf8 b with
                            | Some text => Ok text
                            | None => Err (builtin UnicodeDecodeError)
                            end)
                   | (w1, Err e) => (w1, Err e)
                   end).
  { unfold get_secret. cbv zeta. fold (region_of w). unfold bind at 1.
    rewrite try_except_reraise by (intros cl [<-|[]] e; reflexivity).
    destruct (get_secret_value (region_of w) secret_arn w) as [w1 [[s|b]|e]];
      reflexivity. }
  destruct (get_secret_value (region_of w) secret_arn w) as [w1 [[s|b]|e]];
    try exact Hgen.
  split; [exact Hgen|]. intros key_name.
  unfold get_api_key_from_secret, bind at 1. now rewrite Hgen.
Qed.

(** X22. What [get_api_key_from_secret] returns is never empty: a returned
    value is truthy, and it is the value of the named field of the JSON
    object the secret holds. *)
Theorem get_api_key_from_secret_returns_a_truthy_field
    (secret_arn key_name : string) (w w' : W) (api_key : json) :
  get_api_key_from_secret secret_arn key_name w = (w', Ok api_key) ->
  truthy api_key = true
  /\ exists payload d,
       get_secret secret_arn w = (w', Ok payload)
       /\ json_loads payload = Some (JObj d)
       /\ dict_lookup d key_name = Some api_key.
Proof.
  unfold get_api_key_from_secret, bind at 1.
  destruct (get_secret secret_arn w) as [w1 [payload|e]]; [|discriminate].
  unfold try_except, bind, lift.
  destruct (json_loads payload) as [v|] eqn:Hl; [|discriminate].
  destruct v; try discriminate. cbn [get].
  destruct (dict_lookup d key_name) as [v|] eqn:Hd; [|discriminate].
  destruct (truthy v) eqn:Ht; cbn [negb]; [|discriminate].
  unfold ret. intros H. injection H as <- <-.
  split; [exact Ht|]. now exists payload, d.
Qed.

End WithServices.

Lemma get_api_key_from_secret_returns_a_truthy_field_example :
  truthy (JStr "X") = true
  /\ exists payload d,
       get_secret (rt := Examples.example_runtime) (sv := Examples.example_services)
         "arn:key" Examples.start = (Examples.start, Ok payload)
       /\ json_loads (Runtime := Examples.example_runtime) payload = Some (JObj d)
       /\ dict_lookup d "api_key" = Some (JStr "X").
Proof.
  exact (get_api_key_from_secret_returns_a_truthy_field
           (rt := Examples.example_runtime) (sv := Examples.example_services)
           "arn:key" "api_key" Examples.start Examples.start (JStr "X") eq_refl).
Defined.

End SecretsMore.
